(** * aegis-api: attack-simulation orchestrator and transaction generators

    A shallow embedding of [services/transaction_engine.py],
    [services/attack_simulation.py] and the generation step of
    [services/data_filler.py], together with the properties the specification
    states about them.

    Conventions of the embedding.
    - Python [int] is [Z].  A Python [float] is the rational number it
      holds, and every float operation rounds its exact result to the nearest
      IEEE 754 binary64 value, ties to even ([Py.float]); [round(x, n)] takes
      the decimal nearest to the exact value of [x] and reads it back as a
      float.  Overflow to infinity is not represented.
    - [numpy.random.Generator] is a cursor into an arbitrary stream of raw
      draws; each sampling method maps one raw draw into the range numpy
      documents for it.  Theorems quantify over every stream.  The Beta
      draws of the unseeded fallback generator are outcomes fixed by the
      environment, one for each pair of shape parameters.
    - [hashlib.sha256(..).hexdigest()] is a parameter of the generators.
    - A [datetime] is a day number with a second of the day; the
      [strftime("%Y-%m-%d %H:%M:%S")] rendering is injective on it, so the
      value stands for the rendered string.
    - The external services (scorer, explainer, database session) are an
      environment that fixes the outcome of every call, [None] standing for a
      raised exception. *)

From Stdlib Require Import ZArith QArith Qround Qminmax Qabs Qpower Lqa.
From Stdlib Require Import Ascii String DecimalString DecimalN.
From stdpp Require Import gmap strings list fin_maps.

Open Scope Z_scope.

(** ** Python numerics and formatting *)

Module Py.

(** [str(n)] for a non-negative integer. *)
Definition str_nat (n : N) : string :=
  NilZero.string_of_uint (N.to_uint n).

(** [str(z)] / [f"{z}"] / [f"{z:d}"]. *)
Definition str_int (z : Z) : string :=
  if z <? 0 then String "-"%char (str_nat (Z.to_N (- z))) else str_nat (Z.to_N z).

Fixpoint zeros (k : nat) (s : string) : string :=
  match k with
  | O => s
  | S k' => String "0"%char (zeros k' s)
  end.

(** [f"{z:0{w}d}"]: sign first, then zeros up to width [w]. *)
Definition zfill (w : nat) (z : Z) : string :=
  if z <? 0 then
    let d := str_nat (Z.to_N (- z)) in
    String "-"%char (zeros (Nat.pred w - String.length d) d)
  else
    let d := str_nat (Z.to_N z) in
    zeros (w - String.length d) d.

(** [f"{z:,}"]: digits grouped by three from the right. *)
Fixpoint group3 (rev_digits : list ascii) (k : nat) (acc : list ascii) : list ascii :=
  match rev_digits with
  | [] => acc
  | c :: rest =>
      match k with
      | 3%nat => group3 rest 1%nat (c :: ","%char :: acc)
      | _ => group3 rest (S k) (c :: acc)
      end
  end.

Definition str_int_commas (z : Z) : string :=
  let digits := list_ascii_of_string (str_nat (Z.to_N (Z.abs z))) in
  let body := string_of_list_ascii (group3 (rev digits) 0%nat []) in
  if z <? 0 then String "-"%char body else body.

(** [round(x)] to the nearest integer, ties to the even one. *)
Definition round_half_even (x : Q) : Z :=
  let f := Qfloor x in
  match Qcompare (x - inject_Z f) (1 # 2) with
  | Lt => f
  | Gt => f + 1
  | Eq => if Z.even f then f else f + 1
  end.

(** [2.0 ** k] *)
Definition pow2 (k : Z) : Q := (2 ^ k)%Q.

(** The binary exponent of a positive number: [2^e <= x < 2^(e+1)]. *)
Definition ilog2 (x : Q) : Z :=
  let e0 := Z.log2 (Qnum x) - Z.log2 (Zpos (Qden x)) in
  if Qle_bool (pow2 e0) x then e0 else e0 - 1.

(** The exponent of the last place of the binary64 format at [x]: 53
    significant bits, and never below the subnormal spacing. *)
Definition quantum (x : Q) : Z := Z.max (ilog2 x - 52) (-1074).

(** The multiple of the quantum nearest to a positive [x], ties to even. *)
Definition nearest (x : Q) : Q :=
  let q := quantum x in
  inject_Z (round_half_even (x * pow2 (- q))) * pow2 q.

(** The value of the Python [float] nearest to the number [x]: IEEE 754
    binary64, round to nearest, ties to even. *)
Definition float (x : Q) : Q :=
  let y := Qred x in
  match Qnum y with
  | Z0 => 0
  | Zpos _ => Qred (nearest y)
  | Zneg _ => Qred (- nearest (- y))
  end.

(** [a + b] and [a * b] on floats. *)
Definition fadd (a b : Q) : Q := float (a + b).

Definition fmul (a b : Q) : Q := float (a * b).

(** [round(x, ndigits)] on a float: the decimal with [ndigits] places
    nearest to the exact value of [x], ties to even, read back as a
    float. *)
Definition round (x : Q) (ndigits : nat) : Q :=
  let scale := Zpos (Pos.of_nat (10 ^ ndigits)) in
  float (Qmake (round_half_even (x * inject_Z scale)) (Z.to_pos scale)).

(** [a / b] on two ints or two floats, correctly rounded; [None] is
    [ZeroDivisionError]. *)
Definition truediv (a b : Q) : option Q :=
  if Qeq_bool b 0 then None else Some (float (a / b)).

(** [int(x)]: truncation towards zero. *)
Definition int_of (x : Q) : Z :=
  if Qle_bool 0 x then Qfloor x else Qceiling x.

(** [s[:n]] *)
Definition prefix (n : nat) (s : string) : string := substring 0 n s.

End Py.

(** ** numpy.random.Generator as a cursor into a stream of raw draws *)

Module Rng.

Record Generator := mkGenerator { stream : nat → N; cursor : nat }.

(** A sampling computation: reads the generator, returns it advanced. *)
Definition Rand (A : Type) : Type := Generator → A * Generator.

Definition ret {A} (a : A) : Rand A := λ g, (a, g).

Definition bind {A B} (m : Rand A) (k : A → Rand B) : Rand B :=
  λ g, let '(a, g') := m g in k a g'.

Definition raw : Rand N :=
  λ g, (stream g (cursor g), mkGenerator (stream g) (S (cursor g))).

End Rng.

#[export] Instance rand_ret : MRet Rng.Rand := @Rng.ret.
#[export] Instance rand_bind : MBind Rng.Rand := λ A B k m, Rng.bind m k.

Module RngOps.
Import Rng.

(** [rng.integers(lo, hi)]: uniform on [lo, hi). *)
Definition integers (lo hi : Z) : Rand Z :=
  r ← raw ; ret (lo + Z.of_N r mod (hi - lo)).

(** [random_interval(max)]: uniform on [0, max]. *)
Definition interval (max : nat) : Rand nat :=
  r ← raw ; ret (N.to_nat (r mod N.of_nat (S max))).

(** [rng.choice(seq)]; [d] stands for the error on an empty sequence. *)
Definition choice {A} (d : A) (l : list A) : Rand A :=
  i ← interval (Nat.pred (length l)) ; ret (default d (l !! i)).

(** [rng.choice(seq, size=2, replace=False)]: two distinct positions. *)
Definition choice2 {A} (d : A) (l : list A) : Rand (A * A) :=
  i ← interval (Nat.pred (length l)) ;
  j0 ← interval (Nat.pred (Nat.pred (length l))) ;
  let j := if (j0 <? i)%nat then j0 else S j0 in
  ret (default d (l !! i), default d (l !! j)).

(** [rng.lognormal(mean, sigma)]: some positive number. *)
Definition lognormal : Rand Q :=
  n ← raw ; d ← raw ;
  ret (Qmake (Z.succ (Z.of_N n)) (N.succ_pos d)).

(** [rng.random()]: uniform on [0, 1), 53 random bits. *)
Definition random : Rand Q :=
  r ← raw ; ret (Qmake (Z.of_N (r mod 2 ^ 53)) (2 ^ 53)).

(** [x[i], x[j] = x[j], x[i]] *)
Definition swap {A} (x : list A) (i j : nat) : list A :=
  match x !! i, x !! j with
  | Some xi, Some xj => <[j:=xi]> (<[i:=xj]> x)
  | _, _ => x
  end.

(** The body of [Generator.shuffle] on a Python list:
    [for i in reversed(range(1, n)): j = random_interval(i); swap]. *)
Fixpoint shuffle_from {A} (i : nat) (x : list A) : Rand (list A) :=
  match i with
  | O => ret x
  | S i' => j ← interval i ; shuffle_from i' (swap x i j)
  end.

Definition shuffle {A} (x : list A) : Rand (list A) :=
  shuffle_from (Nat.pred (length x)) x.

End RngOps.

(** ** datetime *)

Record datetime := mkDatetime { day_number : Z; second_of_day : Z }.

(** [dt + timedelta(seconds=s)] *)
Definition add_seconds (dt : datetime) (s : Z) : datetime :=
  let t := second_of_day dt + s in
  mkDatetime (day_number dt + t / 86400) (t mod 86400).

(** [dt.replace(hour=h, minute=m)] *)
Definition replace_hour_minute (dt : datetime) (h m : Z) : datetime :=
  mkDatetime (day_number dt) (h * 3600 + m * 60 + second_of_day dt mod 60).

(** [(a - b).seconds]: the seconds component of the normalised difference. *)
Definition diff_seconds (a b : datetime) : Z :=
  ((day_number a - day_number b) * 86400
   + (second_of_day a - second_of_day b)) mod 86400.

(** [datetime(2026, 2, 25, 14, 0, 0)]; day number as [date.toordinal()]. *)
Definition batch_base_time : datetime := mkDatetime 739672 (14 * 3600).

(** ** services/transaction_engine.py *)

Record Issuer := mkIssuer {
  iss_country : string;
  iss_currency : string;
  iss_rate : Q
}.

(** The transaction dict the generators build, one field per key. *)
Record Txn := mkTxn {
  txn_id : string;
  timestamp : datetime;
  payer : string;
  issuer : string;
  country : string;
  merchant : string;
  city : string;
  amount_idr : Z;
  amount_foreign : Q;
  currency : string;
  is_fraud : bool;
  fraud_type : option string;
  attack_detail : option string
}.

Definition ISSUERS : list (string * Issuer) := [
  ("Alipay_CN",    mkIssuer "CN" "CNY" 2450);
  ("WeChat_CN",    mkIssuer "CN" "CNY" 2450);
  ("UnionPay_CN",  mkIssuer "CN" "CNY" 2450);
  ("JPQR_JP",      mkIssuer "JP" "JPY" 107);
  ("PayPay_JP",    mkIssuer "JP" "JPY" 107);
  ("KakaoPay_KR",  mkIssuer "KR" "KRW" (Py.float (116 # 10)));
  ("GrabPay_SG",   mkIssuer "SG" "SGD" 12200);
  ("TouchNGo_MY",  mkIssuer "MY" "MYR" 3550);
  ("PromptPay_TH", mkIssuer "TH" "THB" 455)
].

Definition MERCHANT_NAMES : list string := [
  "Bali Beach Resort"; "Jakarta Mall"; "Surabaya Electronics";
  "Yogya Batik Center"; "Denpasar Jewelry"; "Bandung Cafe";
  "Medan Food Court"; "Semarang Market"; "Makassar Seafood";
  "Lombok Surf Shop"; "Ubud Art Gallery"; "Kuta Night Market"
].

Definition CITIES : list string := [
  "Bali"; "Jakarta"; "Surabaya"; "Yogyakarta"; "Denpasar";
  "Bandung"; "Medan"; "Semarang"; "Makassar"; "Lombok"
].

(** [list(ISSUERS.keys())] *)
Definition ISSUERS_keys : list string := ISSUERS.*1.

(** [ISSUERS[name]]; the fallback record stands for [KeyError]. *)
Definition ISSUERS_get (name : string) : Issuer :=
  default (mkIssuer "" "" 1)
    ((λ hit, hit.2.2) <$> list_find (λ kv, kv.1 = name) ISSUERS).

(** [round(amount / iss["rate"], 2)]: the int is converted to a float,
    then divided. *)
Definition to_foreign (amount : Z) (iss : Issuer) : Q :=
  Py.round (Py.float (Py.float (inject_Z amount) / iss_rate iss)) 2.

(** [f"TXN-{run_id_prefix}-{n:06d}"] *)
Definition format_txn_id (run_id_prefix : string) (n : Z) : string :=
  "TXN-" +:+ run_id_prefix +:+ "-" +:+ Py.zfill 6 n.

Import Rng RngOps.

Section TransactionEngine.

(** [hashlib.sha256(s.encode()).hexdigest()] *)
Variable sha256_hexdigest : string → string.

Definition _hash (s : string) : string :=
  Py.prefix 16 (sha256_hexdigest s).

Definition gen_normal (txn_id : Z) (base_time : datetime)
    (run_id_prefix : string) : Rand Txn :=
  iss_name ← choice "" ISSUERS_keys;
  let iss := ISSUERS_get iss_name in
  ln ← lognormal;
  let amount := Z.max 50000 (Z.min (Py.int_of ln) 2000000) in
  dt ← integers 0 3600;
  let ts := add_seconds base_time dt in
  tourist ← integers 0 5000;
  m ← choice "" MERCHANT_NAMES;
  c ← choice "" CITIES;
  mret {|
    txn_id := format_txn_id run_id_prefix txn_id;
    timestamp := ts;
    payer := Py.prefix 10 (_hash ("tourist_" +:+ Py.str_int tourist));
    issuer := iss_name;
    country := iss_country iss;
    merchant := m;
    city := c;
    amount_idr := amount;
    amount_foreign := to_foreign amount iss;
    currency := iss_currency iss;
    is_fraud := false;
    fraud_type := None;
    attack_detail := None
  |}.

(** [for i in range(start, start + n): txns.append(body(i))] *)
Fixpoint for_range {A} (start : Z) (n : nat) (body : Z → Rand A)
    : Rand (list A) :=
  match n with
  | O => mret []
  | S n' =>
      x ← body start;
      xs ← for_range (start + 1) n' body;
      mret (x :: xs)
  end.

Definition gen_velocity (txn_id_start : Z) (base_time : datetime)
    (run_id_prefix : string) : Rand (list Txn) :=
  iss_name ← choice "" ISSUERS_keys;
  let iss := ISSUERS_get iss_name in
  a ← integers 0 1000;
  let payer := Py.prefix 10 (_hash ("attacker_vel_" +:+ Py.str_int a)) in
  n ← integers 8 13;
  for_range 0 (Z.to_nat n) (λ i,
    amount ← integers 100000 500000;
    dt ← integers 0 180;
    let ts := add_seconds base_time dt in
    m ← choice "" MERCHANT_NAMES;
    c ← choice "" CITIES;
    mret {|
      txn_id := format_txn_id run_id_prefix (txn_id_start + i);
      timestamp := ts;
      payer := payer;
      issuer := iss_name;
      country := iss_country iss;
      merchant := m;
      city := c;
      amount_idr := amount;
      amount_foreign := to_foreign amount iss;
      currency := iss_currency iss;
      is_fraud := true;
      fraud_type := Some "velocity_attack";
      attack_detail := Some (Py.str_int n +:+ " txns from same payer in <3min")
    |}).

Definition gen_card_testing (txn_id_start : Z) (base_time : datetime)
    (run_id_prefix : string) : Rand (list Txn) :=
  iss_name ← choice "" ISSUERS_keys;
  let iss := ISSUERS_get iss_name in
  a ← integers 0 1000;
  let payer := Py.prefix 10 (_hash ("attacker_ct_" +:+ Py.str_int a)) in
  n_probes ← integers 4 8;
  txns ← for_range 0 (Z.to_nat n_probes) (λ i,
    amount ← integers 10000 35000;
    dt ← integers 0 600;
    let ts := add_seconds base_time dt in
    m ← choice "" MERCHANT_NAMES;
    c ← choice "" CITIES;
    mret {|
      txn_id := format_txn_id run_id_prefix (txn_id_start + i);
      timestamp := ts;
      payer := payer;
      issuer := iss_name;
      country := iss_country iss;
      merchant := m;
      city := c;
      amount_idr := amount;
      amount_foreign := to_foreign amount iss;
      currency := iss_currency iss;
      is_fraud := true;
      fraud_type := Some "card_testing";
      attack_detail := Some ("Probing txn #" +:+ Py.str_int (i + 1) +:+ "/"
                               +:+ Py.str_int n_probes)
    |});
  big ← integers 3000000 10000000;
  dt ← integers 600 900;
  let ts := add_seconds base_time dt in
  m ← choice "" MERCHANT_NAMES;
  c ← choice "" CITIES;
  mret (txns ++ [{|
    txn_id := format_txn_id run_id_prefix (txn_id_start + n_probes);
    timestamp := ts;
    payer := payer;
    issuer := iss_name;
    country := iss_country iss;
    merchant := m;
    city := c;
    amount_idr := big;
    amount_foreign := to_foreign big iss;
    currency := iss_currency iss;
    is_fraud := true;
    fraud_type := Some "card_testing";
    attack_detail := Some ("Large purchase after " +:+ Py.str_int n_probes
                             +:+ " probes! " +:+ Py.str_int_commas big +:+ " IDR")
  |}]).

(** Inner loop of [gen_collusion]: [k] appends for one ring member; the
    sequence offset of each row is [len(txns)] at the time of the append. *)
Fixpoint collusion_rows (k : nat) (row : Z → Z → datetime → string → Txn)
    (base_time : datetime) (txns : list Txn) : Rand (list Txn) :=
  match k with
  | O => mret txns
  | S k' =>
      amount ← integers 500000 5000000;
      mi ← integers 0 60;
      se ← integers 0 60;
      let ts := add_seconds base_time (mi * 60 + se) in
      c ← choice "" CITIES;
      collusion_rows k' row base_time
        (txns ++ [row (Z.of_nat (length txns)) amount ts c])
  end.

(** Outer loop of [gen_collusion]: members [m, m+1, ...]. *)
Fixpoint collusion_members (n : nat) (m : Z)
    (row : string → Z → Z → Z → datetime → string → Txn)
    (base_time : datetime) (txns : list Txn) : Rand (list Txn) :=
  match n with
  | O => mret txns
  | S n' =>
      a ← integers 0 1000;
      let payer := Py.prefix 10
        (_hash ("ring_" +:+ Py.str_int a +:+ "_" +:+ Py.str_int m)) in
      k ← integers 2 4;
      txns' ← collusion_rows (Z.to_nat k) (row payer m) base_time txns;
      collusion_members n' (m + 1) row base_time txns'
  end.

Definition gen_collusion (txn_id_start : Z) (base_time : datetime)
    (run_id_prefix : string) : Rand (list Txn) :=
  iss_name ← choice "" ISSUERS_keys;
  let iss := ISSUERS_get iss_name in
  target ← choice "" MERCHANT_NAMES;
  n_members ← integers 3 6;
  collusion_members (Z.to_nat n_members) 0
    (λ payer m offset amount ts c, {|
      txn_id := format_txn_id run_id_prefix (txn_id_start + offset);
      timestamp := ts;
      payer := payer;
      issuer := iss_name;
      country := iss_country iss;
      merchant := target;
      city := c;
      amount_idr := amount;
      amount_foreign := to_foreign amount iss;
      currency := iss_currency iss;
      is_fraud := true;
      fraud_type := Some "collusion_ring";
      attack_detail := Some ("Ring member " +:+ Py.str_int (m + 1) +:+ "/"
                               +:+ Py.str_int n_members +:+ " -> " +:+ target)
    |})
    base_time [].

Definition gen_geo (txn_id_start : Z) (base_time : datetime)
    (run_id_prefix : string) : Rand (list Txn) :=
  iss_name ← choice "" ISSUERS_keys;
  let iss := ISSUERS_get iss_name in
  a ← integers 0 1000;
  let payer := Py.prefix 10 (_hash ("attacker_geo_" +:+ Py.str_int a)) in
  cities ← choice2 "" CITIES;
  a1 ← integers 200000 1500000;
  a2 ← integers 200000 1500000;
  let ts1 := base_time in
  mi ← integers 5 15;
  let ts2 := add_seconds base_time (mi * 60) in
  let gap := diff_seconds ts2 ts1 / 60 in
  let detail := cities.1 +:+ " -> " +:+ cities.2 +:+ " in "
                  +:+ Py.str_int gap +:+ "min" in
  m1 ← choice "" MERCHANT_NAMES;
  m2 ← choice "" MERCHANT_NAMES;
  mret [
    {|
      txn_id := format_txn_id run_id_prefix txn_id_start;
      timestamp := ts1;
      payer := payer;
      issuer := iss_name;
      country := iss_country iss;
      merchant := m1;
      city := cities.1;
      amount_idr := a1;
      amount_foreign := to_foreign a1 iss;
      currency := iss_currency iss;
      is_fraud := true;
      fraud_type := Some "geo_anomaly";
      attack_detail := Some detail
    |};
    {|
      txn_id := format_txn_id run_id_prefix (txn_id_start + 1);
      timestamp := ts2;
      payer := payer;
      issuer := iss_name;
      country := iss_country iss;
      merchant := m2;
      city := cities.2;
      amount_idr := a2;
      amount_foreign := to_foreign a2 iss;
      currency := iss_currency iss;
      is_fraud := true;
      fraud_type := Some "geo_anomaly";
      attack_detail := Some detail
    |}
  ].

Definition gen_amount (txn_id_start : Z) (base_time : datetime)
    (run_id_prefix : string) : Rand (list Txn) :=
  iss_name ← choice "" ISSUERS_keys;
  let iss := ISSUERS_get iss_name in
  a ← integers 0 1000;
  let payer := Py.prefix 10 (_hash ("attacker_amt_" +:+ Py.str_int a)) in
  amount ← integers 5000000 10000000;
  hour ← choice 0 [22; 23; 0; 1; 2; 3; 4];
  mi ← integers 0 60;
  let ts := replace_hour_minute base_time hour mi in
  m ← choice "" MERCHANT_NAMES;
  c ← choice "" CITIES;
  mret [{|
    txn_id := format_txn_id run_id_prefix txn_id_start;
    timestamp := ts;
    payer := payer;
    issuer := iss_name;
    country := iss_country iss;
    merchant := m;
    city := c;
    amount_idr := amount;
    amount_foreign := to_foreign amount iss;
    currency := iss_currency iss;
    is_fraud := true;
    fraud_type := Some "amount_anomaly";
    attack_detail := Some (Py.str_int_commas amount +:+ " IDR at "
                             +:+ Py.str_int hour +:+ ":00 (off-hours)")
  |}].

(** [np.random.default_rng(seed)] *)
Variable default_rng : Z → Generator.

(** [for _ in range(n): all_txns.append(gen_normal(...)); txn_id += 1] *)
Fixpoint normal_loop (n : nat) (base_time : datetime) (run_id_prefix : string)
    (acc : list Txn * Z) : Rand (list Txn * Z) :=
  match n with
  | O => mret acc
  | S n' =>
      t ← gen_normal acc.2 base_time run_id_prefix;
      normal_loop n' base_time run_id_prefix (acc.1 ++ [t], acc.2 + 1)
  end.

(** [for _ in range(n): t = gen(...); all_txns.extend(t); txn_id += len(t)] *)
Fixpoint group_loop (n : nat) (gen : Z → Rand (list Txn))
    (acc : list Txn * Z) : Rand (list Txn * Z) :=
  match n with
  | O => mret acc
  | S n' =>
      t ← gen acc.2;
      group_loop n' gen (acc.1 ++ t, acc.2 + Z.of_nat (length t))
  end.

(** [generate_attack_batch], with the outcome of [secrets.token_hex(2)]
    as the extra argument [token_hex].  [fraud_pct] is the number as
    written; the function holds the float nearest to it. *)
Definition generate_attack_batch (total : Z) (fraud_pct : Q) (seed : Z)
    (token_hex : string) : list Txn :=
  let rng := default_rng seed in
  let base_time := batch_base_time in
  let run_id_prefix := token_hex in
  let n_fraud_target :=
    Z.max (Py.int_of (Py.fmul (Py.float (inject_Z total))
                        (Py.float fraud_pct))) 10 in
  let n_normal := total - n_fraud_target in
  let fpt := Z.max (n_fraud_target / 5) 2 in
  let times (k : Z) := Z.to_nat (Z.max k 1) in
  fst ((
    acc ← normal_loop (Z.to_nat n_normal) base_time run_id_prefix ([], 1);
    acc ← group_loop (times (fpt / 10))
            (λ i, gen_velocity i base_time run_id_prefix) acc;
    acc ← group_loop (times (fpt / 7))
            (λ i, gen_card_testing i base_time run_id_prefix) acc;
    acc ← group_loop (times (fpt / 8))
            (λ i, gen_collusion i base_time run_id_prefix) acc;
    acc ← group_loop (times (fpt / 2))
            (λ i, gen_geo i base_time run_id_prefix) acc;
    acc ← group_loop (times fpt)
            (λ i, gen_amount i base_time run_id_prefix) acc;
    shuffle acc.1) rng).

End TransactionEngine.

(** ** schemas/attack.py *)

Record AttackConfig := mkConfig {
  config_total : Z;
  config_fraud_pct : Q;
  config_speed : string
}.

Record XAIFeature := mkXAI {
  feature : string;
  display_name : string;
  importance : Q
}.

(** [StatsSnapshot]; the two dictionaries are keyed by whatever
    [txn["fraud_type"]] holds, a string or [None]. *)
Record StatsSnapshot := mkStats {
  total : Z;
  approved : Z;
  flagged : Z;
  tp : Z;
  fp : Z;
  tn : Z;
  fn : Z;
  recall : Q;
  precision : Q;
  f1 : Q;
  fpr : Q;
  per_type : gmap (option string) Z;
  per_type_total : gmap (option string) Z;
  roi_saved : Z
}.

(** [StatsSnapshot()] *)
Definition StatsSnapshot_new : StatsSnapshot :=
  mkStats 0 0 0 0 0 0 0 0 0 0 0 ∅ ∅ 0.

(** [TransactionEvent]: the generated fields with the scoring outcome. *)
Record TransactionEvent := mkTxnEvent {
  ev_txn : Txn;
  risk_score : Q;
  is_flagged : bool;
  xai_reasons : list XAIFeature
}.

(** ** services/attack_simulation.py *)

(** [d[k] = d.get(k, 0) + 1] *)
Definition dict_incr (k : option string) (d : gmap (option string) Z)
    : gmap (option string) Z :=
  <[k := default 0 (d !! k) + 1]> d.

(** Lines "Update stats": the counters and the per-type dictionaries. *)
Definition count_txn (txn : Txn) (flag : bool) (s : StatsSnapshot)
    : StatsSnapshot :=
  if is_fraud txn then
    let ft := fraud_type txn in
    if flag then
      mkStats (total s + 1) (approved s) (flagged s + 1)
        (tp s + 1) (fp s) (tn s) (fn s)
        (recall s) (precision s) (f1 s) (fpr s)
        (dict_incr ft (per_type s)) (dict_incr ft (per_type_total s))
        (roi_saved s)
    else
      mkStats (total s + 1) (approved s + 1) (flagged s)
        (tp s) (fp s) (tn s) (fn s + 1)
        (recall s) (precision s) (f1 s) (fpr s)
        (per_type s) (dict_incr ft (per_type_total s))
        (roi_saved s)
  else
    if flag then
      mkStats (total s + 1) (approved s) (flagged s + 1)
        (tp s) (fp s + 1) (tn s) (fn s)
        (recall s) (precision s) (f1 s) (fpr s)
        (per_type s) (per_type_total s) (roi_saved s)
    else
      mkStats (total s + 1) (approved s + 1) (flagged s)
        (tp s) (fp s) (tn s + 1) (fn s)
        (recall s) (precision s) (f1 s) (fpr s)
        (per_type s) (per_type_total s) (roi_saved s).

(** [1e-8] *)
Definition epsilon : Q := Py.float (1 # 100000000).

(** The recomputation of the derived metrics from the four counters;
    [None] is a [ZeroDivisionError]. *)
Definition derive_metrics (s : StatsSnapshot) : option StatsSnapshot :=
  let '(tp_, fp_, fn_, tn_) := (tp s, fp s, fn s, tn s) in
  r ← Py.truediv (inject_Z tp_) (inject_Z (Z.max (tp_ + fn_) 1));
  let recall_ := Py.round r 4 in
  p ← Py.truediv (inject_Z tp_) (inject_Z (Z.max (tp_ + fp_) 1));
  let precision_ := Py.round p 4 in
  f ← Py.truediv (Py.fmul (Py.fmul 2 precision_) recall_)
        (Qmax (Py.fadd precision_ recall_) epsilon);
  let f1_ := Py.round f 4 in
  x ← Py.truediv (inject_Z fp_) (inject_Z (Z.max (fp_ + tn_) 1));
  let fpr_ := Py.round x 4 in
  Some (mkStats (total s) (approved s) (flagged s)
          (tp s) (fp s) (tn s) (fn s)
          recall_ precision_ f1_ fpr_
          (per_type s) (per_type_total s) (tp_ * 1500000)).

(** One pass through the "Update stats" block of the loop body. *)
Definition update_stats (txn : Txn) (flag : bool) (s : StatsSnapshot)
    : option StatsSnapshot :=
  derive_metrics (count_txn txn flag s).

(** The text of a log event, before f-string rendering. *)
Inductive LogText :=
| LogConnecting
| LogUnreachable
| LogMode (mode : string) (threshold : Q)
| LogGenerating (total : Z) (fraud_pct : Q)
| LogReady (n_txns n_fraud : nat)
| LogComplete (total : Z) (recall precision f1 : Q).

Inductive Event :=
| EvError (text : string)
| EvLog (level : string) (text : LogText)
| EvAttackStart (total fraud : nat)
| EvTransaction (data : TransactionEvent)
| EvStatsUpdate (data : StatsSnapshot)
| EvAttackEnd (data : StatsSnapshot).

(** [models.AttackRun], as far as [run_attack] writes it. *)
Record AttackRun := mkAttackRun {
  run_total_txns : Z;
  run_fraud_pct : Q;
  run_speed : string;
  run_status : string;
  run_mode : option string;
  run_final : option StatsSnapshot;
  run_completed_at : bool
}.

(** [models.SimulatedTransaction] *)
Record SimulatedTransaction := mkRow {
  row_data : TransactionEvent;
  row_has_run : bool
}.

(** The database session: objects added to it, and what commits made
    durable. *)
Record Session := mkSession {
  ses_run : option AttackRun;
  ses_rows : list SimulatedTransaction;
  ses_commit_calls : nat;
  ses_durable_rows : nat;
  ses_durable_run : option AttackRun
}.

(** The collaborators of one invocation. *)
Record Env := mkEnv {
  db : bool;
  commit_ok : nat → bool;
  refresh_ok : bool;
  health_check : bool;
  get_model_info : option (option string * option Q);
  score_transactions : nat → Txn → option (Q * bool);
  explain_transaction : nat → Txn → Q → option (list XAIFeature);
  fallback_beta : nat → Z → Z → Q;
  token_hex : string
}.

(** Module globals, the session and the events yielded so far. *)
Record RunState := mkRunState {
  attack_running : bool;
  current_stats : StatsSnapshot;
  session : Session;
  emitted : list Event
}.

Inductive Res (A : Type) :=
| Ok (a : A)
| Exc.
Arguments Ok {A} a.
Arguments Exc {A}.

Definition Run (A : Type) : Type := RunState → Res A * RunState.

#[export] Instance run_ret : MRet Run := λ A a st, (Ok a, st).
#[export] Instance run_bind : MBind Run := λ A B k m st,
  match m st with
  | (Ok a, st') => k a st'
  | (Exc, st') => (Exc, st')
  end.

Definition raise {A} : Run A := λ st, (Exc, st).

(** [try: m except Exception: h] *)
Definition try_except {A} (m h : Run A) : Run A := λ st,
  match m st with
  | (Ok a, st') => (Ok a, st')
  | (Exc, st') => h st'
  end.

(** [try: m finally: f] *)
Definition try_finally {A} (m : Run A) (f : Run unit) : Run A := λ st,
  let '(r, st') := m st in
  match f st' with
  | (Ok _, st'') => (r, st'')
  | (Exc, st'') => (Exc, st'')
  end.

Definition yield (e : Event) : Run unit := λ st,
  (Ok (), mkRunState (attack_running st) (current_stats st) (session st)
            (emitted st ++ [e])).

Definition set_attack_running (b : bool) : Run unit := λ st,
  (Ok (), mkRunState b (current_stats st) (session st) (emitted st)).

Definition set_current_stats (s : StatsSnapshot) : Run unit := λ st,
  (Ok (), mkRunState (attack_running st) s (session st) (emitted st)).

Definition get_current_stats : Run StatsSnapshot := λ st,
  (Ok (current_stats st), st).

Definition modify_session (f : Session → Session) : Run unit := λ st,
  (Ok (), mkRunState (attack_running st) (current_stats st) (f (session st))
            (emitted st)).

(** [await db.commit()] *)
Definition db_commit (env : Env) : Run unit := λ st,
  let ses := session st in
  let k := ses_commit_calls ses in
  if commit_ok env k then
    (Ok (), mkRunState (attack_running st) (current_stats st)
              (mkSession (ses_run ses) (ses_rows ses) (S k)
                 (length (ses_rows ses)) (ses_run ses))
              (emitted st))
  else
    (Exc, mkRunState (attack_running st) (current_stats st)
            (mkSession (ses_run ses) (ses_rows ses) (S k)
               (ses_durable_rows ses) (ses_durable_run ses))
            (emitted st)).

(** [await db.refresh(attack_run)] *)
Definition db_refresh (env : Env) : Run unit := λ st,
  if refresh_ok env then (Ok (), st) else (Exc, st).

(** [db.add(obj)] for the run header and for a transaction row. *)
Definition add_run (r : AttackRun) (ses : Session) : Session :=
  mkSession (Some r) (ses_rows ses) (ses_commit_calls ses)
    (ses_durable_rows ses) (ses_durable_run ses).

Definition add_row (row : SimulatedTransaction) (ses : Session) : Session :=
  mkSession (ses_run ses) (ses_rows ses ++ [row]) (ses_commit_calls ses)
    (ses_durable_rows ses) (ses_durable_run ses).

(** Attribute writes on the [attack_run] object held by the session. *)
Definition write_run (f : AttackRun → AttackRun) (ses : Session) : Session :=
  mkSession (f <$> ses_run ses) (ses_rows ses) (ses_commit_calls ses)
    (ses_durable_rows ses) (ses_durable_run ses).

Definition set_status (status : string) (r : AttackRun) : AttackRun :=
  mkAttackRun (run_total_txns r) (run_fraud_pct r) (run_speed r) status
    (run_mode r) (run_final r) (run_completed_at r).

Definition set_mode (mode : string) (r : AttackRun) : AttackRun :=
  mkAttackRun (run_total_txns r) (run_fraud_pct r) (run_speed r)
    (run_status r) (Some mode) (run_final r) (run_completed_at r).

Definition set_completed (s : StatsSnapshot) (r : AttackRun) : AttackRun :=
  mkAttackRun (run_total_txns r) (run_fraud_pct r) (run_speed r)
    "completed" (run_mode r) (Some s) true.

(** [delay_map.get(config.speed, 0.04)] *)
Definition delay_of (speed : string) : Q :=
  if decide (speed = "slow") then 15 # 100
  else if decide (speed = "normal") then 4 # 100
  else if decide (speed = "fast") then 5 # 1000
  else 4 # 100.

(** [await asyncio.sleep(delay)]: pacing only. *)
Definition sleep (delay : Q) : Run unit := mret ().

(** The scoring block of the loop body: the upstream answer, or on any
    exception a Beta draw from a fresh unseeded generator;
    [fallback_beta env i a b] is what [np.random.default_rng().beta(a, b)]
    returns while transaction [i] is handled. *)
Definition fallback_score (env : Env) (i : nat) (txn : Txn) : Q :=
  Py.round (Py.float (if is_fraud txn then fallback_beta env i 5 2
                      else fallback_beta env i 1 8)) 4.

Definition score_txn (env : Env) (threshold : Q) (i : nat) (txn : Txn)
    : Q * bool :=
  match score_transactions env i txn with
  | Some (score, flag) => (score, flag)
  | None =>
      let score := fallback_score env i txn in
      (score, Qle_bool threshold score)
  end.

(** The explanation block: asked only for flagged transactions, failures
    swallowed. *)
Definition explain (env : Env) (i : nat) (txn : Txn) (score : Q)
    (flag : bool) : list XAIFeature :=
  if flag then default [] (explain_transaction env i txn score) else [].

(** The "Update stats" block applied to the shared [current_stats]. *)
Definition update_current_stats (txn : Txn) (flag : bool) : Run unit := λ st,
  match update_stats txn flag (current_stats st) with
  | Some s => set_current_stats s st
  | None => (Exc, st)
  end.

(** Body of the loop [for i, txn in enumerate(all_txns)]; [n] is
    [len(all_txns)]. *)
Definition process_txn (env : Env) (threshold : Q) (attack_run : bool)
    (delay : Q) (n : nat) (i : nat) (txn : Txn) : Run unit :=
  let '(score, flag) := score_txn env threshold i txn in
  let xai := explain env i txn score flag in
  let data := mkTxnEvent txn score flag xai in
  (if db env then
     modify_session (add_row (mkRow data attack_run));;
     if (i mod 50 =? 0)%nat then db_commit env else mret ()
   else mret ());;
  update_current_stats txn flag;;
  yield (EvTransaction data);;
  (if (i mod 10 =? 0)%nat || (Z.of_nat i =? Z.of_nat n - 1) then
     s ← get_current_stats;
     yield (EvStatsUpdate s)
   else mret ());;
  sleep delay.

Fixpoint process_all (env : Env) (threshold : Q) (attack_run : bool)
    (delay : Q) (n : nat) (i : nat) (txns : list Txn) : Run unit :=
  match txns with
  | [] => mret ()
  | txn :: rest =>
      process_txn env threshold attack_run delay n i txn;;
      process_all env threshold attack_run delay n (S i) rest
  end.

Section AttackSimulation.

Variable sha256_hexdigest : string → string.
Variable default_rng : Z → Generator.

(** "2. Get model info": the mode and threshold the run goes on with. *)
Definition fetch_model_info (env : Env) : Run (string * Q) :=
  match get_model_info env with
  | Some (m, t) =>
      let mode := default "SIMULATION" m in
      let threshold := default (1 # 2) t in
      yield (EvLog "info" (LogMode mode threshold));;
      mret (mode, threshold)
  | None =>
      yield (EvLog "info" (LogMode "SIMULATION" (1 # 2)));;
      mret ("SIMULATION", 1 # 2)
  end.

(** From [if attack_run and db: attack_run.mode = mode] to the
    [attack_end] event: steps 3 to 5. *)
Definition stream_batch (env : Env) (config : AttackConfig) (delay : Q)
    (attack_run : bool) (mode : string) (threshold : Q) : Run unit :=
  (if attack_run && db env then
     modify_session (write_run (set_mode mode));;
     db_commit env
   else mret ());;
  yield (EvLog "info"
           (LogGenerating (config_total config) (config_fraud_pct config)));;
  let all_txns :=
    generate_attack_batch sha256_hexdigest default_rng
      (config_total config) (config_fraud_pct config) 42 (token_hex env) in
  let n_actual_fraud := length (List.filter is_fraud all_txns) in
  yield (EvLog "info" (LogReady (length all_txns) n_actual_fraud));;
  yield (EvAttackStart (length all_txns) n_actual_fraud);;
  process_all env threshold attack_run delay (length all_txns) 0 all_txns;;
  (if db env then db_commit env else mret ());;
  (if attack_run && db env then
     s ← get_current_stats;
     modify_session (write_run (set_completed s));;
     db_commit env
   else mret ());;
  s ← get_current_stats;
  yield (EvLog "success"
           (LogComplete (total s) (recall s) (precision s) (f1 s)));;
  yield (EvAttackEnd s).

(** Everything inside [try:]. *)
Definition run_body (env : Env) (config : AttackConfig) (delay : Q)
    (attack_run : bool) : Run unit :=
  yield (EvLog "info" LogConnecting);;
  (if health_check env then mret ()
   else yield (EvLog "warning" LogUnreachable));;
  '(mode, threshold) ← fetch_model_info env;
  stream_batch env config delay attack_run mode threshold.

(** The [except Exception] handler: mark the run failed, re-raise. *)
Definition on_failure (env : Env) (attack_run : bool) : Run unit :=
  (if attack_run && db env then
     modify_session (write_run (set_status "failed"));;
     db_commit env
   else mret ());;
  raise.

(** "Create attack run record in DB": runs before [try:] is entered.
    Returns whether [attack_run] is set. *)
Definition persist_header (env : Env) (config : AttackConfig) : Run bool :=
  if db env then
    modify_session (add_run
      (mkAttackRun (config_total config) (config_fraud_pct config)
         (config_speed config) "running" None None false));;
    db_commit env;;
    db_refresh env;;
    mret true
  else mret false.

(** [run_attack] from the line after the two global assignments. *)
Definition run_started (env : Env) (config : AttackConfig) : Run unit :=
  let delay := delay_of (config_speed config) in
  attack_run ← persist_header env config;
  try_finally
    (try_except (run_body env config delay attack_run)
                (on_failure env attack_run))
    (set_attack_running false).

Definition run_attack (env : Env) (config : AttackConfig) : Run unit := λ st,
  if attack_running st then
    yield (EvError "Attack already running!") st
  else
    (set_attack_running true;;
     set_current_stats StatsSnapshot_new;;
     run_started env config) st.

(** ** services/data_filler.py: the generation step *)

Definition generators
    : list (string * (Z → datetime → string → Rand (list Txn))) := [
  ("velocity", gen_velocity sha256_hexdigest);
  ("card_testing", gen_card_testing sha256_hexdigest);
  ("collusion", gen_collusion sha256_hexdigest);
  ("geo", gen_geo sha256_hexdigest);
  ("amount", gen_amount sha256_hexdigest)
].

(** [_generate_single_txn]; [utcnow], the configured ratio and the
    [token_hex(2)] outcome are arguments.  [None] is a [KeyError] or
    [IndexError]. *)
Definition _generate_single_txn (base_time : datetime) (fraud_ratio : Q)
    (run_id_prefix : string) (txn_counter : Z) : Rand (option Txn) :=
  u ← random;
  if Qlt_le_dec u fraud_ratio then
    fraud_gen ← choice ""
      ["velocity"; "card_testing"; "collusion"; "geo"; "amount"];
    match list_find (λ kv, kv.1 = fraud_gen) generators with
    | Some (_, (_, gen)) =>
        txns ← gen txn_counter base_time run_id_prefix;
        mret (head txns)
    | None => mret None
    end
  else
    t ← gen_normal sha256_hexdigest txn_counter base_time run_id_prefix;
    mret (Some t).

End AttackSimulation.

(** ** Predicates used in the statements *)

Definition in_unit (q : Q) : Prop := (0 <= q <= 1)%Q.

Definition counters_nonneg (s : StatsSnapshot) : Prop :=
  0 ≤ tp s ∧ 0 ≤ fp s ∧ 0 ≤ tn s ∧ 0 ≤ fn s.

(** [total == tp + fp + tn + fn == approved + flagged] *)
Definition consistent (s : StatsSnapshot) : Prop :=
  total s = tp s + fp s + tn s + fn s ∧ total s = approved s + flagged s.

(** [s'] differs from [s] in the derived fields only. *)
Definition same_counts (s s' : StatsSnapshot) : Prop :=
  total s' = total s ∧ approved s' = approved s ∧ flagged s' = flagged s ∧
  tp s' = tp s ∧ fp s' = fp s ∧ tn s' = tn s ∧ fn s' = fn s ∧
  per_type s' = per_type s ∧ per_type_total s' = per_type_total s.

(** The derived fields of [s] are the documented functions of its counters,
    evaluated in floats operation by operation, lie in the unit interval,
    and the F1 divisor is not zero. *)
Definition metrics_ok (s : StatsSnapshot) : Prop :=
  recall s
    = Py.round (Py.float (inject_Z (tp s) / inject_Z (Z.max (tp s + fn s) 1)))
        4 ∧
  precision s
    = Py.round (Py.float (inject_Z (tp s) / inject_Z (Z.max (tp s + fp s) 1)))
        4 ∧
  f1 s = Py.round (Py.float (Py.fmul (Py.fmul 2 (precision s)) (recall s)
                             / Qmax (Py.fadd (precision s) (recall s))
                                 epsilon)) 4 ∧
  fpr s
    = Py.round (Py.float (inject_Z (fp s) / inject_Z (Z.max (fp s + tn s) 1)))
        4 ∧
  roi_saved s = tp s * 1500000 ∧
  in_unit (recall s) ∧ in_unit (precision s) ∧ in_unit (f1 s) ∧
  in_unit (fpr s) ∧
  ¬ (Qmax (Py.fadd (precision s) (recall s)) epsilon == 0)%Q ∧
  ((precision s + recall s == 0)%Q → f1 s = 0%Q) ∧
  ((Py.fadd (precision s) (recall s) == 0)%Q → f1 s = 0%Q).

(** Every stats snapshot an event carries satisfies [P]. *)
Definition event_sound (P : StatsSnapshot → Prop) (e : Event) : Prop :=
  match e with
  | EvStatsUpdate s | EvAttackEnd s => P s
  | _ => True
  end.

(** [P] holds of the live stats object and of every snapshot sent out. *)
Definition stats_sound (P : StatsSnapshot → Prop) (st : RunState) : Prop :=
  P (current_stats st) ∧ Forall (event_sound P) (emitted st).

(** [P] survives the stats update for transaction [txn]. *)
Definition update_closed (P : StatsSnapshot → Prop) (txn : Txn) : Prop :=
  ∀ flag s s', P s → update_stats txn flag s = Some s' → P s'.

(** A computation keeps [I], whether it returns or raises. *)
Definition preserves (I : RunState → Prop) {A} (m : Run A) : Prop :=
  ∀ st, I st → I (m st).2.

(** Reading back a string of decimal digits. *)
Definition parse_nat (s : string) : option N :=
  N.of_uint <$> NilEmpty.uint_of_string s.

(** The five fraud archetype names. *)
Definition ARCHETYPES : list string :=
  ["velocity_attack"; "card_testing"; "collusion_ring"; "geo_anomaly";
   "amount_anomaly"].

(** [is_fraud] is set exactly when [fraud_type] is not [None], and a
    [fraud_type] is an archetype name. *)
Definition labelled (t : Txn) : Prop :=
  (is_fraud t = true ↔ fraud_type t ≠ None) ∧
  ∀ ft, fraud_type t = Some ft → ft ∈ ARCHETYPES.

(** A fraud transaction of archetype [ft]. *)
Definition fraud_of (ft : string) (t : Txn) : Prop :=
  is_fraud t = true ∧ fraud_type t = Some ft.

(** The transactions carry prefix [p] and the consecutive sequence numbers
    [start], [start + 1], ... *)
Definition ids_from (p : string) (start : Z) (txns : list Txn) : Prop :=
  ∀ k t, txns !! k = Some t →
         txn_id t = format_txn_id p (start + Z.of_nat k).

(** What every archetype generator returns: between [lo] and [hi] fraud
    transactions of its archetype, numbered from [start]. *)
Definition group_ok (ft : string) (lo hi : nat) (p : string) (start : Z)
    (txns : list Txn) : Prop :=
  (lo ≤ length txns ≤ hi)%nat ∧ Forall (fraud_of ft) txns ∧
  ids_from p start txns.

Definition normal_txn (t : Txn) : Prop :=
  is_fraud t = false ∧ fraud_type t = None.

Definition fraud_txn (t : Txn) : Prop :=
  ∃ ft, ft ∈ ARCHETYPES ∧ fraud_of ft t.

(** The accumulator of [generate_attack_batch] before the shuffle:
    [nn] normal transactions, then between [flo] and [fhi] fraud ones, all
    numbered consecutively from 1, and the counter one past the last. *)
Definition batch_shape (p : string) (nn flo fhi : nat)
    (acc : list Txn * Z) : Prop :=
  ∃ normals frauds,
    acc.1 = normals ++ frauds ∧ length normals = nn ∧
    Forall normal_txn normals ∧ Forall fraud_txn frauds ∧
    (flo ≤ length frauds ≤ fhi)%nat ∧
    ids_from p 1 acc.1 ∧ acc.2 = 1 + Z.of_nat (length acc.1).

(** How often each archetype loop of [generate_attack_batch] runs. *)
Definition times (k : Z) : nat := Z.to_nat (Z.max k 1).

(** Fewest and most fraud transactions the five loops can emit for a
    per-type target [fpt]: groups of 8-12, 5-8, 6-15, 2 and 1. *)
Definition fraud_count_lo (fpt : Z) : nat :=
  0 + times (fpt / 10) * 8 + times (fpt / 7) * 5 + times (fpt / 8) * 6
    + times (fpt / 2) * 2 + times fpt * 1.

Definition fraud_count_hi (fpt : Z) : nat :=
  0 + times (fpt / 10) * 12 + times (fpt / 7) * 8 + times (fpt / 8) * 15
    + times (fpt / 2) * 2 + times fpt * 1.

(** [n_fraud_target] and [fpt] of [generate_attack_batch]. *)
Definition n_fraud_target (total : Z) (fraud_pct : Q) : Z :=
  Z.max (Py.int_of (Py.fmul (Py.float (inject_Z total))
                      (Py.float fraud_pct))) 10.

Definition per_type_target (total : Z) (fraud_pct : Q) : Z :=
  Z.max (n_fraud_target total fraud_pct / 5) 2.

(** The dictionary is keyed by archetype names only, never by [None]. *)
Definition archetype_keys (d : gmap (option string) Z) : Prop :=
  ∀ k, k ∈ dom d → ∃ ft, k = Some ft ∧ ft ∈ ARCHETYPES.

Definition stats_keys_ok (s : StatsSnapshot) : Prop :=
  archetype_keys (per_type s) ∧ archetype_keys (per_type_total s).

(** Transaction [t] is at least 50 times as large as transaction [q]. *)
Definition exceeds_50x (t q : Txn) : Prop :=
  50 * amount_idr q ≤ amount_idr t.

(** In the group [txns], whose last element closes it and whose other
    elements are the probes: the transaction [t] at position [k] exceeds
    every probe other than itself by a factor of at least 50. *)
Definition dominates_probes (txns : list Txn) (k : nat) (t : Txn) : Prop :=
  ∀ j q, (j < length txns - 1)%nat → j ≠ k → txns !! j = Some q →
         exceeds_50x t q.

(** The transaction with its [txn_id] blanked: every other field kept. *)
Definition erase_id (t : Txn) : Txn :=
  mkTxn "" (timestamp t) (payer t) (issuer t) (country t) (merchant t)
    (city t) (amount_idr t) (amount_foreign t) (currency t) (is_fraud t)
    (fraud_type t) (attack_detail t).

(** [t1] and [t2] agree on every field but [txn_id], and their ids carry
    the same sequence number behind the prefixes [p1] and [p2]. *)
Definition same_but_prefix (p1 p2 : string) (t1 t2 : Txn) : Prop :=
  erase_id t1 = erase_id t2 ∧
  ∃ n, txn_id t1 = format_txn_id p1 n ∧ txn_id t2 = format_txn_id p2 n.

(** No session, or a session none of whose calls raises. *)
Definition db_reliable (env : Env) : Prop :=
  db env = false ∨ ((∀ k, commit_ok env k = true) ∧ refresh_ok env = true).

(** The threshold a run scores with: the one [get_model_info] reported,
    else the default 0.5. *)
Definition threshold_of (env : Env) : Q :=
  match get_model_info env with
  | Some (_, t) => default (1 # 2) t
  | None => 1 # 2
  end.

(** The event data of transaction [txn] at loop index [i]. *)
Definition scored_event (env : Env) (threshold : Q) (i : nat) (txn : Txn)
    : TransactionEvent :=
  let score := (score_txn env threshold i txn).1 in
  let flag := (score_txn env threshold i txn).2 in
  mkTxnEvent txn score flag (explain env i txn score flag).

(** The transactions of a run, from loop index [i] on, each with the flag
    its scoring produced. *)
Fixpoint flags (env : Env) (threshold : Q) (i : nat) (txns : list Txn)
    : list (Txn * bool) :=
  match txns with
  | [] => []
  | txn :: rest =>
      (txn, (score_txn env threshold i txn).2) :: flags env threshold (S i) rest
  end.

(** The rows a run adds to the session, from loop index [i] on. *)
Fixpoint rows_of (env : Env) (threshold : Q) (attack_run : bool) (i : nat)
    (txns : list Txn) : list SimulatedTransaction :=
  match txns with
  | [] => []
  | txn :: rest =>
      mkRow (scored_event env threshold i txn) attack_run
        :: rows_of env threshold attack_run (S i) rest
  end.

(** The [transaction] events of a run, from loop index [i] on. *)
Fixpoint txn_events (env : Env) (threshold : Q) (i : nat) (txns : list Txn)
    : list Event :=
  match txns with
  | [] => []
  | txn :: rest =>
      EvTransaction (scored_event env threshold i txn)
        :: txn_events env threshold (S i) rest
  end.

(** A step that returns normally and touches the session only, keeping
    its rows, and leaving every row committed if every row was. *)
Definition quiet (m : Run unit) : Prop :=
  ∀ st, ∃ ses,
    m st = (Ok (), mkRunState (attack_running st) (current_stats st) ses
                     (emitted st)) ∧
    ses_rows ses = ses_rows (session st) ∧
    (ses_durable_rows (session st) = length (ses_rows (session st)) →
     ses_durable_rows ses = length (ses_rows ses)).

(** The scorer flags a transaction exactly when its ground truth is
    fraud. *)
Definition flags_iff_fraud (env : Env) : Prop :=
  ∀ i txn, ∃ score, score_transactions env i txn = Some (score, is_fraud txn).

(** [sum(1 for t in txns if t["is_fraud"])] *)
Definition fraud_count (txns : list Txn) : nat :=
  length (List.filter is_fraud txns).

(** The rows appended so far in [gen_collusion] are ring frauds numbered
    from [start]. *)
Definition ring_rows (p : string) (start : Z) (txns : list Txn) : Prop :=
  Forall (fraud_of "collusion_ring") txns ∧ ids_from p start txns.

(** The row builder of [gen_collusion] makes ring frauds numbered by their
    offset. *)
Definition ring_row (p : string) (start : Z)
    (row : Z → Z → datetime → string → Txn) : Prop :=
  ∀ offset amount ts c,
    fraud_of "collusion_ring" (row offset amount ts c) ∧
    txn_id (row offset amount ts c) = format_txn_id p (start + offset).

(** The accumulators of two batch runs: related lists, equal counters. *)
Definition acc_rel (p1 p2 : string) (a1 a2 : list Txn * Z) : Prop :=
  Forall2 (same_but_prefix p1 p2) a1.1 a2.1 ∧ a1.2 = a2.2.

(** Every outcome of the sampling computation [m] satisfies [P]. *)
Definition yields {A} (P : A → Prop) (m : Rand A) : Prop :=
  ∀ g, P (m g).1.

(** From the same generator, [m1] and [m2] return [R]-related values and
    leave the generator in the same position. *)
Definition coupled {A B} (R : A → B → Prop) (m1 : Rand A) (m2 : Rand B)
    : Prop :=
  ∀ g, R (m1 g).1 (m2 g).1 ∧ (m1 g).2 = (m2 g).2.

(** A module state in which no run is active and nothing was yielded. *)
Definition idle (st : RunState) : Prop :=
  attack_running st = false ∧ emitted st = [].

(** The stats updates of a run, one per scored transaction, in order. *)
Fixpoint replay (scored : list (Txn * bool)) (s : StatsSnapshot)
    : option StatsSnapshot :=
  match scored with
  | [] => Some s
  | (txn, flag) :: rest => s' ← update_stats txn flag s; replay rest s'
  end.

(** What a run that got through looks like, from state [st] on, scoring
    with [threshold]: the batch replayed into the stats, its events sent, its
    rows added and, with a session, every row committed, and [attack_end]
    last. *)
Definition streamed (sha256_hexdigest : string → string)
    (default_rng : Z → Generator) (env : Env) (config : AttackConfig)
    (attack_run : bool) (threshold : Q) (st st' : RunState) : Prop :=
  let batch :=
    generate_attack_batch sha256_hexdigest default_rng (config_total config)
      (config_fraud_pct config) 42 (token_hex env) in
  attack_running st' = attack_running st ∧
  replay (flags env threshold 0 batch) (current_stats st)
    = Some (current_stats st') ∧
  (∃ evs, emitted st' = emitted st ++ evs ++ [EvAttackEnd (current_stats st')]
          ∧ txn_events env threshold 0 batch ⊆ evs) ∧
  ses_rows (session st')
    = ses_rows (session st)
      ++ (if db env then rows_of env threshold attack_run 0 batch else []) ∧
  (db env = true →
   ses_durable_rows (session st') = length (ses_rows (session st'))).

(** ** Predicates on the generated fields *)











(** What numpy documents of [Generator.beta]: for positive shape
    parameters the draw lies in the unit interval. *)
Definition beta_in_range (env : Env) : Prop :=
  ∀ i a b, 0 < a → 0 < b → in_unit (fallback_beta env i a b).

(** The numbers a binary64 float can hold: at most 53 significant bits
    above the subnormal spacing. *)
Definition representable (y : Q) : Prop :=
  ∃ m q, 0 ≤ m < 2 ^ 53 ∧ -1074 ≤ q ∧ (y == inject_Z m * Py.pow2 q)%Q.

(** ** Sample collaborators, for instantiating the statements *)

Definition sample_sha256 (s : string) : string :=
  s +:+ "e3b0c44298fc1c149afbf4c8996fb924".

Definition sample_rng (seed : Z) : Generator :=
  mkGenerator
    (λ n, (N.of_nat n * 7919 + Z.to_N seed * 104729 + 12345) mod 1000003)%N 0.

Definition fresh_session : Session := mkSession None [] 0 0 None.

Definition fresh_state : RunState :=
  mkRunState false StatsSnapshot_new fresh_session [].

(** A module state in which a run is active. *)
Definition busy_state : RunState :=
  mkRunState true StatsSnapshot_new fresh_session [].

Definition sample_config : AttackConfig := mkConfig 100 (1 # 10) "fast".

(** A scorer that flags exactly the ground-truth frauds. *)
Definition stub_scorer (i : nat) (txn : Txn) : option (Q * bool) :=
  Some (if is_fraud txn then 9 # 10 else 1 # 10, is_fraud txn).

(** A scorer whose every call raises. *)
Definition down_scorer (i : nat) (txn : Txn) : option (Q * bool) := None.

(** Beta draws that fall on the mean of the distribution, a / (a + b). *)
Definition sample_beta (i : nat) (a b : Z) : Q := a # Z.to_pos (a + b).

(** No session; the scorer answers. *)
Definition env_stub : Env :=
  mkEnv false (λ _, true) true true None stub_scorer (λ _ _ _, None)
    sample_beta "a1b2".

(** No session; the scorer is down. *)
Definition env_down : Env :=
  mkEnv false (λ _, true) true true None down_scorer (λ _ _ _, None)
    sample_beta "a1b2".

(** A session whose every commit raises. *)
Definition env_db_broken : Env :=
  mkEnv true (λ _, false) true true None stub_scorer (λ _ _ _, None)
    sample_beta "a1b2".

(** A session on which the header and the mode are committed and every
    later commit raises; the scorer is down. *)
Definition env_commit_fails : Env :=
  mkEnv true (λ k, (k <? 2)%nat) true true None down_scorer (λ _ _ _, None)
    sample_beta "a1b2".

(** A reliable session; the scorer is down. *)
Definition env_down_db : Env :=
  mkEnv true (λ _, true) true true None down_scorer (λ _ _ _, None)
    sample_beta "a1b2".

(** The batch of a run of [sample_config] in [env_down], and its first
    transaction. *)
Definition sample_batch : list Txn :=
  generate_attack_batch sample_sha256 sample_rng (config_total sample_config)
    (config_fraud_pct sample_config) 42 (token_hex env_down).

Definition sample_first_txn : Txn :=
  Eval vm_compute in
    default (mkTxn "" batch_base_time "" "" "" "" "" 0 0 "" false None None)
      (head sample_batch).

(** * Properties *)

(** ** Formatting, rounding and division *)

Example str_int_commas_ex : Py.str_int_commas 3456789 = "3,456,789"%string.
Proof. reflexivity. Qed.

Example str_int_commas_ex2 : Py.str_int_commas 456789 = "456,789"%string.
Proof. reflexivity. Qed.

Example zfill_ex : Py.zfill 6 42 = "000042"%string.
Proof. reflexivity. Qed.

Example zfill_ex_wide : Py.zfill 6 1234567 = "1234567"%string.
Proof. reflexivity. Qed.

(** [0.1] is the float 3602879701896397 / 2^55. *)
Example float_ex :
  Py.float (1 # 10) = (3602879701896397 # 36028797018963968)%Q.
Proof. by vm_compute. Qed.

(** [round(1/160, 4) == 0.0063]: the quotient is a float just above the
    tie 0.00625. *)
Example round_ex :
  (r ← Py.truediv 1 160; Some (Py.round r 4)) = Some (Py.float (63 # 10000)).
Proof. by vm_compute. Qed.

(** [round(0.03125, 4) == 0.0312]: an exact tie goes to the even digit. *)
Example round_tie_ex : Py.round (1 # 32) 4 = Py.float (312 # 10000).
Proof. by vm_compute. Qed.

(** [round(5997947 / 12200.0, 2) == 491.63] *)
Example to_foreign_ex :
  to_foreign 5997947 (ISSUERS_get "GrabPay_SG") = Py.float (49163 # 100).
Proof. by vm_compute. Qed.

(** [int(100 * 0.29) == 28] and [int(100 * 0.1) == 10] *)
Example n_fraud_target_ex :
  Py.int_of (Py.fmul (Py.float 100) (Py.float (29 # 100))) = 28 ∧
  Py.int_of (Py.fmul (Py.float 100) (Py.float (1 # 10))) = 10.
Proof. by vm_compute. Qed.

Lemma round_half_even_bounds (x : Q) (n : Z) :
  (0 <= x)%Q → (x <= inject_Z n)%Q →
  0 ≤ Py.round_half_even x ≤ n.
Proof.
  intros H0 Hn. unfold Py.round_half_even.
  pose proof (Qfloor_le x) as Hfl.
  pose proof (Qlt_floor x) as Hlt.
  assert (0 ≤ Qfloor x) as Hf0.
  { change 0 with (Qfloor 0). by apply Qfloor_resp_le. }
  assert (Qfloor x ≤ n) as Hfn.
  { rewrite <- (Qfloor_Z n). by apply Qfloor_resp_le. }
  assert ((1 # 2 <= x - inject_Z (Qfloor x))%Q → Qfloor x + 1 ≤ n) as Hhalf.
  { intros Hge. destruct (decide (Qfloor x = n)) as [E|]; [|lia].
    rewrite E in Hge. lra. }
  destruct (Qcompare_spec (x - inject_Z (Qfloor x)) (1 # 2)) as [E|L|G].
  - destruct (Z.even (Qfloor x)); [lia|].
    split; [lia|]. apply Hhalf. rewrite E. lra.
  - lia.
  - split; [lia|]. apply Hhalf. lra.
Qed.

#[export] Instance round_half_even_proper :
  Proper (Qeq ==> eq) Py.round_half_even.
Proof.
  intros x y E. unfold Py.round_half_even.
  rewrite (Qfloor_comp _ _ E).
  by rewrite (Qcompare_comp _ _ (Qminus_comp _ _ E _ _ (Qeq_refl _)) _ _ (Qeq_refl _)).
Qed.

Lemma round_half_even_Z (n : Z) : Py.round_half_even (inject_Z n) = n.
Proof.
  unfold Py.round_half_even. rewrite Qfloor_Z.
  destruct (Qcompare_spec (inject_Z n - inject_Z n) (1 # 2)) as [E|L|G];
    [exfalso; lra | done | exfalso; lra].
Qed.

Lemma round_half_even_mono (x y : Q) :
  (x <= y)%Q → Py.round_half_even x ≤ Py.round_half_even y.
Proof.
  intros Hxy. unfold Py.round_half_even.
  pose proof (Qfloor_resp_le _ _ Hxy) as Hf.
  pose proof (Qfloor_le x) as Hx1. pose proof (Qlt_floor x) as Hx2.
  pose proof (Qfloor_le y) as Hy1. pose proof (Qlt_floor y) as Hy2.
  set (fx := Qfloor x) in *. set (fy := Qfloor y) in *.
  destruct (Z.eq_dec fx fy) as [E|Hne].
  - rewrite <- E in *. clear E Hf.
    destruct (Qcompare_spec (x - inject_Z fx) (1 # 2)) as [Ex|Lx|Gx],
             (Qcompare_spec (y - inject_Z fx) (1 # 2)) as [Ey|Ly|Gy];
      destruct (Z.even fx); try lia; exfalso; lra.
  - assert (fx + 1 ≤ fy) as Hlt by lia.
    destruct (Qcompare (x - inject_Z fx) (1 # 2)),
             (Qcompare (y - inject_Z fy) (1 # 2));
      destruct (Z.even fx), (Z.even fy); lia.
Qed.

Lemma round_half_even_le (x : Q) (n : Z) :
  (x <= inject_Z n)%Q → Py.round_half_even x ≤ n.
Proof.
  intros H. rewrite <- (round_half_even_Z n). by apply round_half_even_mono.
Qed.

Lemma round_half_even_ge (x : Q) (n : Z) :
  (inject_Z n <= x)%Q → n ≤ Py.round_half_even x.
Proof.
  intros H. rewrite <- (round_half_even_Z n) at 1.
  by apply round_half_even_mono.
Qed.

(** ** Powers of two *)

Lemma pow2_pos (k : Z) : (0 < Py.pow2 k)%Q.
Proof. apply Qpower_0_lt. reflexivity. Qed.

Lemma pow2_add (a b : Z) : (Py.pow2 (a + b) == Py.pow2 a * Py.pow2 b)%Q.
Proof. apply Qpower_plus. discriminate. Qed.

Lemma pow2_cancel (k : Z) : (Py.pow2 (- k) * Py.pow2 k == 1)%Q.
Proof. rewrite <- pow2_add. by replace (- k + k) with 0 by lia. Qed.

Lemma pow2_Z (k : Z) : 0 ≤ k → (Py.pow2 k == inject_Z (2 ^ k))%Q.
Proof. intros H. unfold Py.pow2. by rewrite Zpower_Qpower. Qed.

Lemma pow2_le (a b : Z) : a ≤ b → (Py.pow2 a <= Py.pow2 b)%Q.
Proof. intros H. apply Qpower_le_compat_l; [done|discriminate]. Qed.

Lemma pow2_lt_inv (a b : Z) : (Py.pow2 a < Py.pow2 b)%Q → a < b.
Proof. intros H. by apply (Qpower_lt_compat_l_inv 2). Qed.

Lemma frac_lt_pow2 (n : Z) (d : positive) (A B : Z) :
  0 ≤ A → 0 ≤ B → n * 2 ^ B < 2 ^ A * Zpos d →
  (n # d < Py.pow2 (A - B))%Q.
Proof.
  intros HA HB H. unfold Z.sub. rewrite pow2_add.
  apply (Qmult_lt_r _ _ (Py.pow2 B)); [apply pow2_pos|].
  rewrite <- Qmult_assoc, pow2_cancel, Qmult_1_r, !pow2_Z by done.
  unfold Qlt, Qmult, inject_Z. cbn [Qnum Qden]. lia.
Qed.

Lemma pow2_le_frac (n : Z) (d : positive) (A B : Z) :
  0 ≤ A → 0 ≤ B → 2 ^ A * Zpos d ≤ n * 2 ^ B →
  (Py.pow2 (A - B) <= n # d)%Q.
Proof.
  intros HA HB H. unfold Z.sub. rewrite pow2_add.
  apply (Qmult_le_r _ _ (Py.pow2 B)); [apply pow2_pos|].
  rewrite <- Qmult_assoc, pow2_cancel, Qmult_1_r, !pow2_Z by done.
  unfold Qle, Qmult, inject_Z. cbn [Qnum Qden]. lia.
Qed.

Lemma ilog2_spec (x : Q) :
  (0 < x)%Q →
  (Py.pow2 (Py.ilog2 x) <= x)%Q ∧ (x < Py.pow2 (Py.ilog2 x + 1))%Q.
Proof.
  intros Hx. destruct x as [n d].
  assert (0 < n) as Hn by (unfold Qlt in Hx; cbn in Hx; lia).
  unfold Py.ilog2. cbn [Qnum Qden].
  pose proof (Z.log2_spec n Hn) as [Hn1 Hn2].
  pose proof (Z.log2_spec (Zpos d) ltac:(lia)) as [Hd1 Hd2].
  pose proof (Z.log2_nonneg n) as Ha.
  pose proof (Z.log2_nonneg (Zpos d)) as Hb.
  set (a := Z.log2 n) in *. set (b := Z.log2 (Zpos d)) in *.
  assert (0 < 2 ^ a) as Pa by (apply Z.pow_pos_nonneg; lia).
  assert (0 < 2 ^ b) as Pb by (apply Z.pow_pos_nonneg; lia).
  destruct (Qle_bool (Py.pow2 (a - b)) (n # d)) eqn:E.
  - apply Qle_bool_iff in E. split; [done|].
    replace (a - b + 1) with (Z.succ a - b) by lia.
    apply frac_lt_pow2; [lia|lia|]. nia.
  - assert (n # d < Py.pow2 (a - b))%Q as Hlt.
    { apply Qnot_le_lt. intros H. apply Qle_bool_iff in H. congruence. }
    split.
    + replace (a - b - 1) with (a - Z.succ b) by lia.
      apply pow2_le_frac; [lia|lia|]. nia.
    + by replace (a - b - 1 + 1) with (a - b) by lia.
Qed.

Lemma ilog2_mono (x y : Q) :
  (0 < x)%Q → (x <= y)%Q → Py.ilog2 x ≤ Py.ilog2 y.
Proof.
  intros Hx Hxy.
  destruct (ilog2_spec x Hx) as [Hx1 _].
  destruct (ilog2_spec y) as [_ Hy2]; [lra|].
  assert (Py.pow2 (Py.ilog2 x) < Py.pow2 (Py.ilog2 y + 1))%Q as H by lra.
  apply pow2_lt_inv in H. lia.
Qed.

(** ** Rounding to binary64 is monotone and fixes the small integers *)

Lemma nearest_nonneg (x : Q) : (0 < x)%Q → (0 <= Py.nearest x)%Q.
Proof.
  intros Hx. unfold Py.nearest.
  pose proof (pow2_pos (Py.quantum x)) as Hq.
  pose proof (pow2_pos (- Py.quantum x)) as Hq'.
  assert (0 ≤ Py.round_half_even (x * Py.pow2 (- Py.quantum x))) as Hm.
  { apply round_half_even_ge. change (inject_Z 0) with 0%Q. nra. }
  assert (0 <= inject_Z (Py.round_half_even (x * Py.pow2 (- Py.quantum x))))%Q
    as Hm' by (change 0%Q with (inject_Z 0); by rewrite <- Zle_Qle).
  nra.
Qed.

Lemma nearest_mono (x y : Q) :
  (0 < x)%Q → (x <= y)%Q → (Py.nearest x <= Py.nearest y)%Q.
Proof.
  intros Hx Hxy. assert (0 < y)%Q as Hy by lra.
  pose proof (ilog2_mono x y Hx Hxy) as He.
  destruct (ilog2_spec x Hx) as [_ Hx2].
  destruct (ilog2_spec y Hy) as [Hy1 _].
  unfold Py.nearest, Py.quantum.
  set (ex := Py.ilog2 x) in *. set (ey := Py.ilog2 y) in *.
  set (qx := Z.max (ex - 52) (-1074)). set (qy := Z.max (ey - 52) (-1074)).
  destruct (Z.eq_dec qx qy) as [E|Hne].
  - rewrite <- E. apply Qmult_le_compat_r; [|apply Qlt_le_weak, pow2_pos].
    rewrite <- Zle_Qle. apply round_half_even_mono.
    apply Qmult_le_compat_r; [done|apply Qlt_le_weak, pow2_pos].
  - assert (qx < qy) as Hq by lia.
    assert (qy = ey - 52) as Eqy by lia.
    assert (ex + 1 ≤ ey) as Hlt by lia.
    apply (Qle_trans _ (Py.pow2 ey)).
    + assert (Py.round_half_even (x * Py.pow2 (- qx)) ≤ 2 ^ (ey - qx)) as Hm.
      { apply round_half_even_le. rewrite <- pow2_Z by lia.
        unfold Z.sub at 1. rewrite pow2_add.
        apply Qmult_le_compat_r; [|apply Qlt_le_weak, pow2_pos].
        pose proof (pow2_le (ex + 1) ey Hlt). lra. }
      rewrite Zle_Qle in Hm. rewrite <- pow2_Z in Hm by lia.
      apply (Qmult_le_compat_r _ _ (Py.pow2 qx)) in Hm;
        [|apply Qlt_le_weak, pow2_pos].
      rewrite <- pow2_add in Hm.
      by replace (ey - qx + qx) with ey in Hm by lia.
    + assert (2 ^ 52 ≤ Py.round_half_even (y * Py.pow2 (- qy))) as Hm.
      { apply round_half_even_ge. rewrite <- pow2_Z by lia.
        replace 52 with (ey + - qy) by lia. rewrite pow2_add.
        apply Qmult_le_compat_r; [done|apply Qlt_le_weak, pow2_pos]. }
      rewrite Zle_Qle in Hm. rewrite <- pow2_Z in Hm by lia.
      apply (Qmult_le_compat_r _ _ (Py.pow2 qy)) in Hm;
        [|apply Qlt_le_weak, pow2_pos].
      rewrite <- pow2_add in Hm.
      by replace (52 + qy) with ey in Hm by lia.
Qed.

Lemma Qnum_pos (x : Q) : (0 < x)%Q ↔ 0 < Qnum x.
Proof. unfold Qlt. cbn. lia. Qed.

#[export] Instance float_proper : Proper (Qeq ==> eq) Py.float.
Proof. intros x y E. unfold Py.float. by rewrite (Qred_complete _ _ E). Qed.

Lemma float_pos_eq (x : Q) :
  (0 < x)%Q → Py.float x = Qred (Py.nearest (Qred x)).
Proof.
  intros Hx. unfold Py.float.
  assert (0 < Qred x)%Q as H by (by rewrite Qred_correct).
  apply Qnum_pos in H. by destruct (Qnum (Qred x)).
Qed.

Lemma float_zero_eq (x : Q) : (x == 0)%Q → Py.float x = 0%Q.
Proof. intros E. by rewrite (float_proper _ _ E). Qed.

Lemma float_nonneg (x : Q) : (0 <= x)%Q → (0 <= Py.float x)%Q.
Proof.
  intros Hx. destruct (Qlt_le_dec 0 x) as [Hpos|Hle].
  - rewrite (float_pos_eq _ Hpos), Qred_correct.
    apply nearest_nonneg. by rewrite Qred_correct.
  - rewrite float_zero_eq; [done|lra].
Qed.

Lemma float_mono (x y : Q) :
  (0 <= x)%Q → (x <= y)%Q → (Py.float x <= Py.float y)%Q.
Proof.
  intros Hx Hxy. destruct (Qlt_le_dec 0 x) as [Hpos|Hle].
  - rewrite (float_pos_eq _ Hpos), (float_pos_eq y) by lra.
    rewrite (Qred_correct (Py.nearest (Qred x))).
    rewrite (Qred_correct (Py.nearest (Qred y))).
    apply nearest_mono; by rewrite ?Qred_correct.
  - rewrite (float_zero_eq x) by lra. apply float_nonneg. lra.
Qed.

Lemma Qred_inject_Z (n : Z) : Qred (inject_Z n) = inject_Z n.
Proof.
  unfold Qred, inject_Z.
  pose proof (Z.ggcd_gcd n 1) as Hg.
  pose proof (Z.ggcd_correct_divisors n 1) as Hd.
  destruct (Z.ggcd n 1) as [g [a b]]. cbn [fst snd] in *.
  rewrite Z.gcd_1_r in Hg. subst g. destruct Hd as [-> Hb].
  assert (b = 1) as -> by lia. f_equal. lia.
Qed.

Lemma float_Z (n : Z) :
  0 ≤ n < 2 ^ 53 → Py.float (inject_Z n) = inject_Z n.
Proof.
  intros [Hn0 Hn]. destruct (Z.eq_dec n 0) as [->|Hne]; [done|].
  assert (0 < inject_Z n)%Q as Hpos.
  { change 0%Q with (inject_Z 0). rewrite <- Zlt_Qlt. lia. }
  rewrite (float_pos_eq _ Hpos).
  rewrite <- (Qred_inject_Z n) at 2. apply Qred_complete.
  rewrite Qred_inject_Z.
  destruct (ilog2_spec _ Hpos) as [H1 H2].
  unfold Py.nearest, Py.quantum. set (e := Py.ilog2 (inject_Z n)) in *.
  assert (0 ≤ e ≤ 52) as He.
  { split.
    - assert (Py.pow2 0 < Py.pow2 (e + 1))%Q as H.
      { eapply Qle_lt_trans; [|exact H2]. change (Py.pow2 0) with (inject_Z 1).
        rewrite <- Zle_Qle. lia. }
      apply pow2_lt_inv in H. lia.
    - assert (Py.pow2 e < Py.pow2 53)%Q as H.
      { eapply Qle_lt_trans; [exact H1|]. rewrite (pow2_Z 53) by lia.
        rewrite <- Zlt_Qlt. lia. }
      apply pow2_lt_inv in H. lia. }
  replace (Z.max (e - 52) (-1074)) with (e - 52) by lia.
  replace (- (e - 52)) with (52 - e) by lia.
  rewrite (pow2_Z (52 - e)) by lia. rewrite <- inject_Z_mult.
  rewrite round_half_even_Z, inject_Z_mult, <- pow2_Z by lia.
  rewrite <- Qmult_assoc, <- pow2_add.
  replace (52 - e + (e - 52)) with 0 by lia. apply Qmult_1_r.
Qed.

(** ** What a float can hold *)

Lemma representable_0 : representable 0.
Proof. exists 0, 0. split; [lia|]. split; [lia|]. reflexivity. Qed.

Lemma representable_proper (x y : Q) :
  (x == y)%Q → representable x → representable y.
Proof. intros E (m & q & Hm & Hq & Ex). exists m, q. by rewrite <- E. Qed.

(** Rounding a number a float can hold returns it. *)
Lemma float_of_representable (y : Q) :
  representable y → (Py.float y == y)%Q.
Proof.
  intros (m & q & [Hm0 Hm] & Hq & E).
  destruct (Z.eq_dec m 0) as [->|Hne].
  { rewrite Qmult_0_l in E. rewrite (float_zero_eq _ E). by rewrite E. }
  assert (0 < inject_Z m)%Q as Hmpos.
  { change 0%Q with (inject_Z 0). rewrite <- Zlt_Qlt. lia. }
  pose proof (pow2_pos q) as Hpq.
  assert (0 < y)%Q as Hpos by (rewrite E; nra).
  rewrite (float_pos_eq _ Hpos), Qred_correct.
  set (z := Qred y). assert (z == y)%Q as Ez by apply Qred_correct.
  assert (0 < z)%Q as Hz by (by rewrite Ez).
  destruct (ilog2_spec z Hz) as [H1 _].
  unfold Py.nearest, Py.quantum. set (e := Py.ilog2 z) in *.
  assert (e - 52 ≤ q) as He.
  { assert (Py.pow2 e < Py.pow2 (53 + q))%Q as H.
    { eapply Qle_lt_trans; [exact H1|]. rewrite Ez, E, pow2_add.
      apply Qmult_lt_compat_r; [done|]. rewrite (pow2_Z 53) by lia.
      rewrite <- Zlt_Qlt. lia. }
    apply pow2_lt_inv in H. lia. }
  set (k := Z.max (e - 52) (-1074)). assert (k ≤ q) as Hk by lia.
  assert (z * Py.pow2 (- k) == inject_Z (m * 2 ^ (q - k)))%Q as Ei.
  { rewrite Ez, E, inject_Z_mult, <- pow2_Z by lia.
    rewrite <- Qmult_assoc, <- pow2_add. by replace (q + - k) with (q - k) by lia. }
  rewrite (round_half_even_proper _ _ Ei), round_half_even_Z.
  rewrite inject_Z_mult, <- pow2_Z by lia.
  rewrite <- Qmult_assoc, <- pow2_add.
  replace (q - k + k) with q by lia. by rewrite E.
Qed.

(** What rounding returns is a number a float can hold. *)
Lemma float_representable (x : Q) : (0 <= x)%Q → representable (Py.float x).
Proof.
  intros Hx. destruct (Qlt_le_dec 0 x) as [Hpos|Hle].
  2: { rewrite float_zero_eq by lra. apply representable_0. }
  rewrite (float_pos_eq _ Hpos).
  set (z := Qred x). assert (z == x)%Q as Ez by apply Qred_correct.
  assert (0 < z)%Q as Hz by (by rewrite Ez).
  apply (representable_proper (Py.nearest z));
    [by rewrite Qred_correct|].
  destruct (ilog2_spec z Hz) as [_ H2].
  unfold Py.nearest, Py.quantum. set (e := Py.ilog2 z) in *.
  set (k := Z.max (e - 52) (-1074)).
  set (m := Py.round_half_even (z * Py.pow2 (- k))).
  assert (0 ≤ m ≤ 2 ^ 53) as [Hm0 Hm].
  { split.
    - apply round_half_even_ge. change (inject_Z 0) with 0%Q.
      pose proof (pow2_pos (- k)). nra.
    - apply round_half_even_le. rewrite <- pow2_Z by lia.
      apply (Qle_trans _ (Py.pow2 (e + 1) * Py.pow2 (- k))).
      + apply Qmult_le_compat_r; [lra|apply Qlt_le_weak, pow2_pos].
      + rewrite <- pow2_add. apply pow2_le. lia. }
  destruct (Z.eq_dec m (2 ^ 53)) as [E|Hne].
  - exists (2 ^ 52), (k + 1). split; [lia|]. split; [lia|].
    rewrite E, pow2_add. change (Py.pow2 1) with 2%Q.
    change (inject_Z (2 ^ 53)) with (inject_Z (2 ^ 52) * 2)%Q. ring.
  - exists m, k. split; [lia|]. split; [lia|]. reflexivity.
Qed.

(** Doubling a float is exact. *)
Lemma representable_double (y : Q) :
  representable y → representable (2 * y).
Proof.
  intros (m & q & Hm & Hq & E). exists m, (q + 1).
  split; [done|]. split; [lia|].
  rewrite E, pow2_add. change (Py.pow2 1) with 2%Q. ring.
Qed.

Lemma float_double (y : Q) :
  representable y → (Py.fmul 2 y == 2 * y)%Q.
Proof. intros H. by apply float_of_representable, representable_double. Qed.

Lemma float_in_unit (x : Q) : in_unit x → in_unit (Py.float x).
Proof.
  intros [H0 H1]. split; [by apply float_nonneg|].
  change 1%Q with (inject_Z 1). rewrite <- (float_Z 1) by lia.
  by apply float_mono.
Qed.

Lemma round4_unfold (x : Q) :
  Py.round x 4 = Py.float (Qmake (Py.round_half_even (x * 10000)) 10000).
Proof. reflexivity. Qed.

Lemma round4_in_unit (x : Q) : in_unit x → in_unit (Py.round x 4).
Proof.
  intros [H0 H1]. rewrite round4_unfold. apply float_in_unit.
  destruct (round_half_even_bounds (x * 10000) 10000) as [Hlo Hhi];
    [lra | change (inject_Z 10000) with 10000%Q; lra |].
  unfold in_unit, Qle. simpl. lia.
Qed.

Lemma round4_representable (x : Q) :
  (0 <= x)%Q → representable (Py.round x 4).
Proof.
  intros H0. rewrite round4_unfold. apply float_representable.
  assert (0 ≤ Py.round_half_even (x * 10000)) as H.
  { apply round_half_even_ge. change (inject_Z 0) with 0%Q. lra. }
  unfold Qle. simpl. lia.
Qed.

Lemma round4_proper (x y : Q) : (x == y)%Q → Py.round x 4 = Py.round y 4.
Proof.
  intros E. rewrite !round4_unfold.
  assert (x * 10000 == y * 10000)%Q as E' by (by rewrite E).
  by rewrite (round_half_even_proper _ _ E').
Qed.

Lemma round4_zero (x : Q) : (x == 0)%Q → Py.round x 4 = 0%Q.
Proof. intros E. rewrite (round4_proper _ _ E). by vm_compute. Qed.

Lemma round4_one (x : Q) : (x == 1)%Q → Py.round x 4 = 1%Q.
Proof. intros E. rewrite (round4_proper _ _ E). by vm_compute. Qed.

Lemma round4_float_zero (x : Q) :
  (x == 0)%Q → Py.round (Py.float x) 4 = 0%Q.
Proof. intros E. rewrite (float_zero_eq _ E). by vm_compute. Qed.

Lemma truediv_pos (a b : Q) :
  (0 < b)%Q → Py.truediv a b = Some (Py.float (a / b)).
Proof.
  intros Hb. unfold Py.truediv.
  destruct (Qeq_bool b 0) eqn:E; [|done].
  apply Qeq_bool_eq in E. lra.
Qed.

Lemma ratio_in_unit (a b : Z) :
  0 ≤ a → 0 ≤ b → in_unit (inject_Z a / inject_Z (Z.max (a + b) 1)).
Proof.
  intros Ha Hb. unfold in_unit.
  assert (0 < inject_Z (Z.max (a + b) 1))%Q as Hd.
  { change 0%Q with (inject_Z 0). rewrite <- Zlt_Qlt. lia. }
  split.
  - apply Qle_shift_div_l; [done|]. rewrite Qmult_0_l.
    change 0%Q with (inject_Z 0). rewrite <- Zle_Qle. lia.
  - apply Qle_shift_div_r; [done|]. rewrite Qmult_1_l.
    rewrite <- Zle_Qle. lia.
Qed.

Lemma epsilon_pos : (0 < epsilon)%Q.
Proof. by vm_compute. Qed.

(** The F1 quotient of two floats of the unit interval: the product is
    rounded below the rounded sum, so the quotient stays in the unit
    interval. *)
Lemma harmonic_in_unit (p r : Q) :
  representable p → in_unit p → in_unit r →
  in_unit (Py.fmul (Py.fmul 2 p) r / Qmax (Py.fadd p r) epsilon).
Proof.
  intros Hrep [Hp0 Hp1] [Hr0 Hr1]. unfold in_unit.
  pose proof epsilon_pos as He.
  pose proof (Q.le_max_l (Py.fadd p r) epsilon) as Hl.
  pose proof (Q.le_max_r (Py.fadd p r) epsilon) as Hr.
  assert (0 < Qmax (Py.fadd p r) epsilon)%Q as Hd by lra.
  pose proof (float_double p Hrep) as E2.
  assert (0 <= Py.fmul 2 p * r)%Q as Hn0 by (rewrite E2; nra).
  assert (Py.fmul 2 p * r <= p + r)%Q as Hn1 by (rewrite E2; nra).
  assert (0 <= Py.fmul (Py.fmul 2 p) r)%Q as Hnum0
    by (by apply float_nonneg).
  assert (Py.fmul (Py.fmul 2 p) r <= Py.fadd p r)%Q as Hnum1
    by (by apply float_mono).
  split.
  - apply Qle_shift_div_l; [done|]. lra.
  - apply Qle_shift_div_r; [done|]. lra.
Qed.

(** With both terms zero the F1 quotient is zero. *)
Lemma harmonic_zero (p r : Q) :
  (p == 0)%Q → (r == 0)%Q →
  (Py.fmul (Py.fmul 2 p) r / Qmax (Py.fadd p r) epsilon == 0)%Q.
Proof.
  intros Ep Er.
  assert (Py.fmul (Py.fmul 2 p) r = 0%Q) as ->.
  { unfold Py.fmul at 1. apply float_zero_eq. rewrite Er. ring. }
  unfold Qdiv. apply Qmult_0_l.
Qed.

(** A sum of two non-negative floats that rounds to zero has both terms
    zero. *)
Lemma fadd_zero (p r : Q) :
  representable p → representable r → (0 <= p)%Q → (0 <= r)%Q →
  (Py.fadd p r == 0)%Q → (p == 0)%Q ∧ (r == 0)%Q.
Proof.
  intros Hp Hr Hp0 Hr0 E.
  assert (Py.float p <= Py.fadd p r)%Q as H1 by (apply float_mono; lra).
  assert (Py.float r <= Py.fadd p r)%Q as H2 by (apply float_mono; lra).
  rewrite (float_of_representable p Hp) in H1.
  rewrite (float_of_representable r Hr) in H2.
  split; lra.
Qed.

#[global] Opaque Py.float.

(** ** The stats aggregator *)

Lemma max1_pos (a : Z) : (0 < inject_Z (Z.max a 1))%Q.
Proof. change 0%Q with (inject_Z 0). rewrite <- Zlt_Qlt. lia. Qed.

Lemma qmax_eps_pos (x : Q) : (0 < Qmax x epsilon)%Q.
Proof. pose proof (Q.le_max_r x epsilon). pose proof epsilon_pos. lra. Qed.

Lemma truediv_bind {A} (a b : Q) (k : Q → option A) :
  (0 < b)%Q → (Py.truediv a b ≫= k) = k (Py.float (a / b)).
Proof. intros Hb. by rewrite (truediv_pos a b Hb). Qed.

(** No division of the recomputation raises: every divisor is at least 1,
    or at least [1e-8]. *)
Lemma derive_metrics_eq (s : StatsSnapshot) :
  derive_metrics s
  = let r := Py.round
               (Py.float (inject_Z (tp s) / inject_Z (Z.max (tp s + fn s) 1)))
               4 in
    let p := Py.round
               (Py.float (inject_Z (tp s) / inject_Z (Z.max (tp s + fp s) 1)))
               4 in
    Some (mkStats (total s) (approved s) (flagged s)
            (tp s) (fp s) (tn s) (fn s)
            r p
            (Py.round
               (Py.float (Py.fmul (Py.fmul 2 p) r / Qmax (Py.fadd p r) epsilon))
               4)
            (Py.round
               (Py.float (inject_Z (fp s) / inject_Z (Z.max (fp s + tn s) 1)))
               4)
            (per_type s) (per_type_total s) (tp s * 1500000)).
Proof.
  unfold derive_metrics.
  rewrite (truediv_bind _ _ _ (max1_pos (tp s + fn s))).
  rewrite (truediv_bind _ _ _ (max1_pos (tp s + fp s))).
  rewrite (truediv_bind _ _ _ (qmax_eps_pos _)).
  rewrite (truediv_bind _ _ _ (max1_pos (fp s + tn s))).
  reflexivity.
Qed.

Lemma metrics_ok_intro (s : StatsSnapshot) (r p : Q) :
  counters_nonneg s →
  r = Py.round (Py.float (inject_Z (tp s) / inject_Z (Z.max (tp s + fn s) 1)))
        4 →
  p = Py.round (Py.float (inject_Z (tp s) / inject_Z (Z.max (tp s + fp s) 1)))
        4 →
  recall s = r → precision s = p →
  f1 s = Py.round
           (Py.float (Py.fmul (Py.fmul 2 p) r / Qmax (Py.fadd p r) epsilon))
           4 →
  fpr s = Py.round
            (Py.float (inject_Z (fp s) / inject_Z (Z.max (fp s + tn s) 1)))
            4 →
  roi_saved s = tp s * 1500000 →
  metrics_ok s.
Proof.
  intros (Htp & Hfp & Htn & Hfn) Er Ep Erec Eprec Ef Ex Eroi.
  assert (in_unit r) as Hr.
  { rewrite Er. apply round4_in_unit, float_in_unit, ratio_in_unit; lia. }
  assert (in_unit p) as Hp.
  { rewrite Ep. apply round4_in_unit, float_in_unit, ratio_in_unit; lia. }
  assert (representable r) as Rr.
  { rewrite Er. apply round4_representable, float_nonneg, ratio_in_unit; lia. }
  assert (representable p) as Rp.
  { rewrite Ep. apply round4_representable, float_nonneg, ratio_in_unit; lia. }
  unfold metrics_ok. rewrite Erec, Eprec, Ef, Ex.
  split; [exact Er|]. split; [exact Ep|]. split; [reflexivity|].
  split; [reflexivity|]. split; [exact Eroi|].
  split; [exact Hr|]. split; [exact Hp|].
  split.
  { apply round4_in_unit, float_in_unit, harmonic_in_unit; assumption. }
  split; [apply round4_in_unit, float_in_unit, ratio_in_unit; lia|].
  split; [pose proof (qmax_eps_pos (Py.fadd p r)); lra|].
  destruct Hr as [Hr0 _], Hp as [Hp0 _]. split.
  - intros E. apply round4_float_zero, harmonic_zero; lra.
  - intros E. destruct (fadd_zero p r Rp Rr Hp0 Hr0 E) as [E1 E2].
    apply round4_float_zero, harmonic_zero; assumption.
Qed.

(** With one true positive among 160 frauds the quotient 1/160 is a float
    just above 0.00625, so recall is 0.0063 and F1 0.0125; with tp = 1,
    fp = 23, fn = 71 the F1 quotient lies just above 0.02085 and rounds to
    0.0209. *)
Example derive_metrics_ex :
  (s' ← derive_metrics (mkStats 160 159 1 1 0 0 159 0 0 0 0 ∅ ∅ 0);
   Some (recall s', precision s', f1 s', fpr s'))
  = Some (Py.float (63 # 10000), 1%Q, Py.float (125 # 10000), 0%Q) ∧
  (s' ← derive_metrics (mkStats 95 71 24 1 23 0 71 0 0 0 0 ∅ ∅ 0);
   Some (recall s', precision s', f1 s', fpr s'))
  = Some (Py.float (139 # 10000), Py.float (417 # 10000),
          Py.float (209 # 10000), 1%Q).
Proof. split; by vm_compute. Qed.

Lemma derive_metrics_spec (s : StatsSnapshot) :
  counters_nonneg s →
  ∃ s', derive_metrics s = Some s' ∧ same_counts s s' ∧ metrics_ok s'.
Proof.
  intros Hs. rewrite (derive_metrics_eq s). cbv zeta.
  eexists. split; [reflexivity|]. split; [by repeat split|].
  eapply metrics_ok_intro; try reflexivity. exact Hs.
Qed.

Lemma count_txn_consistent (txn : Txn) (flag : bool) (s : StatsSnapshot) :
  consistent s → consistent (count_txn txn flag s).
Proof.
  intros [H1 H2]. unfold consistent, count_txn.
  destruct (is_fraud txn), flag; cbn; lia.
Qed.

Lemma count_txn_nonneg (txn : Txn) (flag : bool) (s : StatsSnapshot) :
  counters_nonneg s → counters_nonneg (count_txn txn flag s).
Proof.
  intros (? & ? & ? & ?). unfold counters_nonneg, count_txn.
  destruct (is_fraud txn), flag; cbn; lia.
Qed.

Lemma update_stats_spec (txn : Txn) (flag : bool) (s : StatsSnapshot) :
  counters_nonneg s →
  ∃ s', update_stats txn flag s = Some s' ∧
        same_counts (count_txn txn flag s) s' ∧
        counters_nonneg s' ∧ metrics_ok s'.
Proof.
  intros Hs. unfold update_stats.
  destruct (derive_metrics_spec (count_txn txn flag s)) as (s' & E & Hc & Hm).
  { by apply count_txn_nonneg. }
  exists s'. split; [done|]. split; [done|]. split; [|done].
  pose proof (count_txn_nonneg txn flag s Hs) as (? & ? & ? & ?).
  destruct Hc as (_ & _ & _ & ? & ? & ? & ? & _).
  unfold counters_nonneg. lia.
Qed.

Lemma update_stats_consistent (txn : Txn) (flag : bool) (s s' : StatsSnapshot) :
  consistent s → counters_nonneg s → update_stats txn flag s = Some s' →
  consistent s' ∧ counters_nonneg s'.
Proof.
  intros Hc Hn E.
  destruct (update_stats_spec txn flag s Hn) as (s'' & E' & Hsame & Hn' & _).
  rewrite E in E'. injection E' as <-. split; [|done].
  pose proof (count_txn_consistent txn flag s Hc) as [H1 H2].
  destruct Hsame as (? & ? & ? & ? & ? & ? & ? & _).
  unfold consistent. lia.
Qed.

Lemma new_stats_consistent :
  consistent StatsSnapshot_new ∧ counters_nonneg StatsSnapshot_new.
Proof. by repeat split. Qed.

Lemma replay_consistent (scored : list (Txn * bool)) (s : StatsSnapshot) :
  consistent s → counters_nonneg s →
  ∃ s', replay scored s = Some s' ∧ consistent s' ∧ counters_nonneg s'.
Proof.
  revert s. induction scored as [|[txn flag] rest IH]; intros s Hc Hn.
  - by exists s.
  - cbn [replay].
    destruct (update_stats_spec txn flag s Hn) as (s1 & E & _).
    rewrite E. cbn [mbind option_bind].
    apply IH; by eapply update_stats_consistent.
Qed.

(** ** The run monad: invariants kept on every exit *)

Section Preserves.

Context (I : RunState → Prop).

Lemma preserves_ret {A} (a : A) : preserves I (mret a).
Proof. by intros st H. Qed.

Lemma preserves_raise {A} : preserves I (@raise A).
Proof. by intros st H. Qed.

Lemma preserves_bind {A B} (m : Run A) (k : A → Run B) :
  preserves I m → (∀ a, preserves I (k a)) → preserves I (m ≫= k).
Proof.
  intros Hm Hk st H. specialize (Hm st H).
  unfold mbind, run_bind. destruct (m st) as [[a|] st']; [|done].
  by apply Hk.
Qed.

Lemma preserves_try_except {A} (m h : Run A) :
  preserves I m → preserves I h → preserves I (try_except m h).
Proof.
  intros Hm Hh st H. specialize (Hm st H).
  unfold try_except. destruct (m st) as [[a|] st']; [done|].
  by apply Hh.
Qed.

Lemma preserves_try_finally {A} (m : Run A) (f : Run unit) :
  preserves I m → preserves I f → preserves I (try_finally m f).
Proof.
  intros Hm Hf st H. specialize (Hm st H).
  unfold try_finally. destruct (m st) as [r st'].
  specialize (Hf st' Hm). by destruct (f st') as [[[]|] st''].
Qed.

Lemma preserves_if {A} (b : bool) (m1 m2 : Run A) :
  preserves I m1 → preserves I m2 → preserves I (if b then m1 else m2).
Proof. by destruct b. Qed.

End Preserves.

Section StatsSound.

Context (P : StatsSnapshot → Prop).

Lemma sound_yield (e : Event) :
  event_sound P e → preserves (stats_sound P) (yield e).
Proof.
  intros He st [H1 H2]. split; [done|]. cbn.
  apply Forall_app. split; [done|]. by constructor.
Qed.

Lemma sound_yield_current (mk : StatsSnapshot → Event) :
  (∀ s, P s → event_sound P (mk s)) →
  preserves (stats_sound P) (s ← get_current_stats; yield (mk s)).
Proof.
  intros Hmk st [H1 H2]. split; [done|]. cbn.
  apply Forall_app. split; [done|]. constructor; [|done]. by apply Hmk.
Qed.

Lemma sound_modify_session (f : Session → Session) :
  preserves (stats_sound P) (modify_session f).
Proof. by intros st H. Qed.

Lemma sound_db_commit (env : Env) : preserves (stats_sound P) (db_commit env).
Proof. intros st H. unfold db_commit. by destruct (commit_ok _ _). Qed.

Lemma sound_db_refresh (env : Env) : preserves (stats_sound P) (db_refresh env).
Proof. intros st H. unfold db_refresh. by destruct (refresh_ok _). Qed.

Lemma sound_set_attack_running (b : bool) :
  preserves (stats_sound P) (set_attack_running b).
Proof. by intros st H. Qed.

Lemma sound_sleep (d : Q) : preserves (stats_sound P) (sleep d).
Proof. by intros st H. Qed.

Lemma sound_update (txn : Txn) (flag : bool) :
  update_closed P txn →
  preserves (stats_sound P) (update_current_stats txn flag).
Proof.
  intros Hcl st [H1 H2]. unfold update_current_stats.
  destruct (update_stats txn flag (current_stats st)) as [s'|] eqn:E.
  - split; [|done]. cbn. by eapply Hcl.
  - by split.
Qed.

Lemma sound_process_txn env threshold attack_run delay n i txn :
  update_closed P txn →
  preserves (stats_sound P)
    (process_txn env threshold attack_run delay n i txn).
Proof.
  intros Hcl. unfold process_txn.
  destruct (score_txn env threshold i txn) as [score flag].
  repeat first
    [ by apply (sound_yield_current EvStatsUpdate)
    | apply preserves_bind; [|intros ?]
    | apply preserves_if
    | apply preserves_ret
    | apply sound_modify_session
    | apply sound_db_commit
    | apply sound_sleep
    | by apply sound_update
    | by apply sound_yield ].
Qed.

Lemma sound_process_all env threshold attack_run delay n i txns :
  Forall (update_closed P) txns →
  preserves (stats_sound P)
    (process_all env threshold attack_run delay n i txns).
Proof.
  intros H. revert i. induction H as [|txn rest Htxn _ IH]; intros i.
  - apply preserves_ret.
  - cbn [process_all]. apply preserves_bind; [|intros _; apply IH].
    by apply sound_process_txn.
Qed.

End StatsSound.

Ltac sound_steps :=
  repeat first
    [ by apply (sound_yield_current _ EvStatsUpdate)
    | apply preserves_bind; [|intros ?]
    | apply preserves_if
    | apply preserves_ret
    | apply preserves_raise
    | apply sound_modify_session
    | apply sound_db_commit
    | apply sound_db_refresh
    | apply sound_set_attack_running
    | apply sound_sleep
    | by apply sound_yield ].

Section RunSound.

Context (sha256_hexdigest : string → string) (default_rng : Z → Generator).
Context (P : StatsSnapshot → Prop).

Lemma sound_run_body env config delay attack_run :
  Forall (update_closed P)
    (generate_attack_batch sha256_hexdigest default_rng
       (config_total config) (config_fraud_pct config) 42 (token_hex env)) →
  preserves (stats_sound P)
    (run_body sha256_hexdigest default_rng env config delay attack_run).
Proof.
  intros Hbatch. unfold run_body, fetch_model_info, stream_batch.
  apply preserves_bind; [sound_steps|intros _].
  apply preserves_bind; [sound_steps|intros _].
  apply preserves_bind.
  { destruct (get_model_info env) as [[m t]|]; sound_steps. }
  intros [mode threshold].
  apply preserves_bind; [sound_steps|intros _].
  apply preserves_bind; [sound_steps|intros _].
  apply preserves_bind; [sound_steps|intros _].
  apply preserves_bind; [sound_steps|intros _].
  apply preserves_bind; [by apply sound_process_all|intros _].
  apply preserves_bind; [sound_steps|intros _].
  apply preserves_bind.
  { apply preserves_if; [|sound_steps].
    apply preserves_bind; [by intros st H|intros s; sound_steps]. }
  intros _. intros st [H1 H2]. split; [done|]. cbn.
  repeat (apply Forall_app; split); by repeat constructor.
Qed.

Lemma sound_on_failure env attack_run :
  preserves (stats_sound P) (on_failure env attack_run).
Proof. unfold on_failure. sound_steps. Qed.

Lemma run_attack_idle env config st :
  attack_running st = false →
  run_attack sha256_hexdigest default_rng env config st
  = run_started sha256_hexdigest default_rng env config
      (mkRunState true StatsSnapshot_new (session st) (emitted st)).
Proof. intros H. destruct st; cbn in H; subst. reflexivity. Qed.

Lemma sound_run_attack env config st :
  P StatsSnapshot_new →
  Forall (update_closed P)
    (generate_attack_batch sha256_hexdigest default_rng
       (config_total config) (config_fraud_pct config) 42 (token_hex env)) →
  attack_running st = false →
  Forall (event_sound P) (emitted st) →
  stats_sound P (run_attack sha256_hexdigest default_rng env config st).2.
Proof.
  intros Hnew Hbatch Hidle Hev. rewrite run_attack_idle by done.
  assert (preserves (stats_sound P)
            (run_started sha256_hexdigest default_rng env config)) as Hp.
  { unfold run_started, persist_header.
    apply preserves_bind; [sound_steps|intros ar].
    apply preserves_try_finally; [|sound_steps].
    apply preserves_try_except; [by apply sound_run_body|].
    apply sound_on_failure. }
  by apply Hp.
Qed.

End RunSound.

(** ** Claims on the stats aggregator and the run guard *)

Section RunClaims.

Context (sha256_hexdigest : string → string) (default_rng : Z → Generator).

Lemma consistent_closed (txn : Txn) :
  update_closed (λ s, consistent s ∧ counters_nonneg s) txn.
Proof. intros flag s s' [Hc Hn] E. by eapply update_stats_consistent. Qed.

Lemma metrics_closed (txn : Txn) :
  update_closed (λ s, counters_nonneg s ∧ metrics_ok s) txn.
Proof.
  intros flag s s' [Hn _] E.
  destruct (update_stats_spec txn flag s Hn) as (s'' & E' & _ & Hn' & Hm).
  rewrite E in E'. by injection E' as <-.
Qed.

Lemma new_stats_metrics_ok : metrics_ok StatsSnapshot_new.
Proof.
  unfold metrics_ok, in_unit. cbn.
  repeat split; try reflexivity; try (by vm_compute).
Qed.

(** C2.  After every stats update of a run the totals agree:
    [total = tp + fp + tn + fn = approved + flagged].  This holds of the
    result of replaying any sequence of scored transactions from a new
    snapshot, of the live stats object when [run_attack] finishes (normally
    or not), and of every snapshot carried by a [stats_update] or
    [attack_end] event. *)
Theorem stats_totals_agree (scored : list (Txn * bool)) env config st :
  idle st →
  (∃ s, replay scored StatsSnapshot_new = Some s ∧ consistent s) ∧
  let st' := (run_attack sha256_hexdigest default_rng env config st).2 in
  consistent (current_stats st') ∧
  ∀ s, EvStatsUpdate s ∈ emitted st' ∨ EvAttackEnd s ∈ emitted st' →
       consistent s.
Proof.
  intros [Hrun Hev]. split.
  - destruct (replay_consistent scored StatsSnapshot_new) as (s & E & Hc & _);
      try apply new_stats_consistent.
    by exists s.
  - destruct (sound_run_attack sha256_hexdigest default_rng
                (λ s, consistent s ∧ counters_nonneg s) env config st)
      as [[Hc _] Hall].
    { apply new_stats_consistent. }
    { apply Forall_forall. intros txn _. apply consistent_closed. }
    { done. }
    { rewrite Hev. constructor. }
    cbn zeta. split; [done|].
    rewrite Forall_forall in Hall.
    intros s [Hin|Hin]; by destruct (Hall _ Hin).
Qed.

(** C7.  For all non-negative counter values, the all-zero case included,
    the recomputation of the metrics never divides by zero and yields
    recall, precision, F1 and false-positive rate in [0, 1], each the
    4-digit rounding of its formula as Python evaluates it in floats, with
    F1 equal to 0 when precision + recall is 0, as an exact sum or as the
    float sum; the same holds of the live stats object and of every snapshot
    a run sends out. *)
Theorem metrics_within_unit_interval (s : StatsSnapshot) env config st :
  counters_nonneg s → idle st →
  (∃ s', derive_metrics s = Some s' ∧ same_counts s s' ∧ metrics_ok s') ∧
  (∀ txn flag, ∃ s', update_stats txn flag s = Some s' ∧ metrics_ok s') ∧
  let st' := (run_attack sha256_hexdigest default_rng env config st).2 in
  metrics_ok (current_stats st') ∧
  ∀ s', EvStatsUpdate s' ∈ emitted st' ∨ EvAttackEnd s' ∈ emitted st' →
        metrics_ok s'.
Proof.
  intros Hs [Hrun Hev]. split; [by apply derive_metrics_spec|]. split.
  - intros txn flag.
    destruct (update_stats_spec txn flag s Hs) as (s' & E & _ & _ & Hm).
    by exists s'.
  - destruct (sound_run_attack sha256_hexdigest default_rng
                (λ s, counters_nonneg s ∧ metrics_ok s) env config st)
      as [[_ Hm] Hall].
    { split; [apply new_stats_consistent | apply new_stats_metrics_ok]. }
    { apply Forall_forall. intros txn _. apply metrics_closed. }
    { done. }
    { rewrite Hev. constructor. }
    cbn zeta. split; [done|].
    rewrite Forall_forall in Hall.
    intros s' [Hin|Hin]; by destruct (Hall _ Hin).
Qed.

(** C3.  Invoked while a run is active, [run_attack] yields exactly one
    error event and returns; [attack_running], [current_stats] and the
    session are left as they were. *)
Theorem run_attack_rejected_while_running env config st :
  attack_running st = true →
  run_attack sha256_hexdigest default_rng env config st
  = (Ok (), mkRunState (attack_running st) (current_stats st) (session st)
              (emitted st ++ [EvError "Attack already running!"])).
Proof. intros H. destruct st; cbn in H; subst. reflexivity. Qed.

Lemma try_finally_releases {A} (m : Run A) st :
  attack_running (try_finally m (set_attack_running false) st).2 = false.
Proof. unfold try_finally. by destruct (m st) as [r st']. Qed.

(** Once the header is persisted (or there is no session), the guard is
    released however the run ends. *)
Lemma run_attack_releases_guard env config st :
  attack_running st = false →
  db env = false
  ∨ (commit_ok env (ses_commit_calls (session st)) = true
     ∧ refresh_ok env = true) →
  attack_running (run_attack sha256_hexdigest default_rng env config st).2 = false.
Proof.
  intros Hidle Hdb. rewrite run_attack_idle by done.
  unfold run_started, persist_header.
  destruct Hdb as [Hdb|[Hc Hr]].
  - rewrite Hdb. apply try_finally_releases.
  - destruct (db env); [|apply try_finally_releases].
    unfold mbind, run_bind, modify_session, db_commit, db_refresh.
    cbn. destruct (commit_ok env _); [|discriminate].
    destruct (refresh_ok env); [|discriminate].
    apply try_finally_releases.
Qed.

(** C1 (the code departs from the claim).  With a session whose first
    commit raises, [run_attack] raises while persisting the run header,
    before [try:] is entered, and [attack_running] stays [True]. *)
Theorem run_attack_header_failure_keeps_guard env config st :
  attack_running st = false →
  db env = true →
  commit_ok env (ses_commit_calls (session st)) = false →
  (run_attack sha256_hexdigest default_rng env config st).1 = Exc ∧
  attack_running (run_attack sha256_hexdigest default_rng env config st).2 = true.
Proof.
  intros Hidle Hdb Hc. rewrite run_attack_idle by done.
  unfold run_started, persist_header. rewrite Hdb.
  unfold mbind, run_bind, modify_session, db_commit.
  cbn. by destruct (commit_ok env _).
Qed.

End RunClaims.

Lemma stats_totals_agree_witness :
  idle fresh_state ∧
  consistent
    (current_stats
       (run_attack sample_sha256 sample_rng env_down sample_config
          fresh_state).2).
Proof.
  split; [by split|].
  exact (proj1 (proj2 (stats_totals_agree sample_sha256 sample_rng []
                         env_down sample_config fresh_state
                         (conj eq_refl eq_refl)))).
Defined.

Lemma metrics_within_unit_interval_witness :
  counters_nonneg StatsSnapshot_new ∧ idle fresh_state ∧
  ∃ s', derive_metrics StatsSnapshot_new = Some s' ∧
        same_counts StatsSnapshot_new s' ∧ metrics_ok s'.
Proof.
  split; [by repeat split|]. split; [by split|].
  refine (proj1 (metrics_within_unit_interval sample_sha256 sample_rng
                   StatsSnapshot_new env_down sample_config fresh_state
                   _ (conj eq_refl eq_refl))).
  by repeat split.
Defined.

Lemma run_attack_rejected_while_running_witness :
  run_attack sample_sha256 sample_rng env_stub sample_config busy_state
  = (Ok (), mkRunState true StatsSnapshot_new fresh_session
              [EvError "Attack already running!"]).
Proof.
  apply (run_attack_rejected_while_running sample_sha256 sample_rng env_stub
           sample_config busy_state).
  reflexivity.
Defined.

Lemma run_attack_header_failure_keeps_guard_witness :
  (run_attack sample_sha256 sample_rng env_db_broken sample_config
     fresh_state).1 = Exc ∧
  attack_running
    (run_attack sample_sha256 sample_rng env_db_broken sample_config
       fresh_state).2 = true.
Proof.
  apply (run_attack_header_failure_keeps_guard sample_sha256 sample_rng
           env_db_broken sample_config fresh_state); reflexivity.
Defined.


(** ** A small logic for sampling computations *)

Section Sampling.

Context {A B : Type}.

Lemma yields_ret (P : A → Prop) (a : A) : P a → yields P (mret a).
Proof. by intros H g. Qed.

Lemma yields_bind (Q : A → Prop) (P : B → Prop) (m : Rand A)
    (k : A → Rand B) :
  yields Q m → (∀ a, Q a → yields P (k a)) → yields P (m ≫= k).
Proof.
  intros Hm Hk g. unfold mbind, rand_bind, Rng.bind.
  specialize (Hm g). destruct (m g) as [a g']. by apply Hk.
Qed.

Lemma yields_any (m : Rand A) : yields (λ _, True) m.
Proof. by intros g. Qed.

Lemma yields_mono (P Q : A → Prop) (m : Rand A) :
  (∀ a, P a → Q a) → yields P m → yields Q m.
Proof. intros H Hm g. by apply H. Qed.

Lemma yields_bind_any (P : B → Prop) (m : Rand A) (k : A → Rand B) :
  (∀ a, yields P (k a)) → yields P (m ≫= k).
Proof. intros Hk. apply (yields_bind (λ _, True)); [apply yields_any|auto]. Qed.

End Sampling.

Section Coupling.

Context {A1 A2 B1 B2 : Type}.

Lemma coupled_ret (R : A1 → A2 → Prop) (a1 : A1) (a2 : A2) :
  R a1 a2 → coupled R (mret a1) (mret a2).
Proof. by intros H g. Qed.

Lemma coupled_bind (Q : A1 → A2 → Prop) (R : B1 → B2 → Prop)
    (m1 : Rand A1) (m2 : Rand A2) (k1 : A1 → Rand B1) (k2 : A2 → Rand B2) :
  coupled Q m1 m2 →
  (∀ a1 a2, Q a1 a2 → coupled R (k1 a1) (k2 a2)) →
  coupled R (m1 ≫= k1) (m2 ≫= k2).
Proof.
  intros Hm Hk g. unfold mbind, rand_bind, Rng.bind.
  destruct (Hm g) as [Hq Hg].
  destruct (m1 g) as [a1 g1], (m2 g) as [a2 g2]. cbn in *. subst g2.
  by apply Hk.
Qed.

End Coupling.

Lemma coupled_refl {A} (m : Rand A) : coupled eq m m.
Proof. by intros g. Qed.

(** The same draw on both sides, then related continuations. *)
Lemma coupled_bind_same {A B1 B2} (R : B1 → B2 → Prop) (m : Rand A)
    (k1 : A → Rand B1) (k2 : A → Rand B2) :
  (∀ a, coupled R (k1 a) (k2 a)) → coupled R (m ≫= k1) (m ≫= k2).
Proof.
  intros Hk. apply (coupled_bind eq); [apply coupled_refl|].
  intros a ? <-. apply Hk.
Qed.

(** ** Ranges of the sampling primitives *)

Lemma yields_integers (lo hi : Z) :
  lo < hi → yields (λ v, lo ≤ v < hi) (integers lo hi).
Proof.
  intros H g. unfold integers, raw, mbind, rand_bind, Rng.bind. cbn [fst].
  pose proof (Z.mod_pos_bound (Z.of_N (stream g (cursor g))) (hi - lo)
                ltac:(lia)).
  unfold mret, rand_ret, Rng.ret. cbn [fst]. lia.
Qed.

Lemma yields_interval (max : nat) : yields (λ v, (v ≤ max)%nat) (interval max).
Proof.
  intros g. unfold interval, raw, mbind, rand_bind, Rng.bind. cbn [fst].
  pose proof (N.mod_upper_bound (stream g (cursor g)) (N.of_nat (S max))
                ltac:(lia)).
  unfold mret, rand_ret, Rng.ret. cbn [fst]. lia.
Qed.

Lemma yields_choice {A} (d : A) (l : list A) :
  l ≠ [] → yields (λ v, v ∈ l) (choice d l).
Proof.
  intros Hl. unfold choice.
  apply (yields_bind (λ i, (i ≤ Nat.pred (length l))%nat));
    [apply yields_interval|].
  intros i Hi. apply yields_ret.
  destruct l as [|x l]; [done|]. cbn in Hi.
  destruct (lookup_lt_is_Some_2 (x :: l) i) as [y Hy]; [cbn; lia|].
  rewrite Hy. cbn. by eapply list_elem_of_lookup_2.
Qed.

(** ** Shape of the generated groups *)

Lemma yields_for_range {A} (P : Z → A → Prop) (start : Z) (n : nat)
    (body : Z → Rand A) :
  (∀ i, yields (P i) (body i)) →
  yields (λ xs, length xs = n ∧
                ∀ k x, xs !! k = Some x → P (start + Z.of_nat k) x)
    (for_range start n body).
Proof.
  intros Hbody. revert start. induction n as [|n IH]; intros start.
  - apply yields_ret. split; [done|]. intros k x Hk. by destruct k.
  - cbn [for_range]. apply (yields_bind (P start)); [apply Hbody|].
    intros x Hx. eapply yields_bind; [apply (IH (start + 1))|].
    intros xs [Hlen Hxs]. apply yields_ret. split; [cbn; lia|].
    intros [|k] y Hk; cbn in Hk.
    + injection Hk as <-. by rewrite Z.add_0_r.
    + replace (start + Z.of_nat (S k)) with (start + 1 + Z.of_nat k) by lia.
      by apply Hxs.
Qed.

Lemma ids_from_app (p : string) (start : Z) (l1 l2 : list Txn) :
  ids_from p start l1 →
  ids_from p (start + Z.of_nat (length l1)) l2 →
  ids_from p start (l1 ++ l2).
Proof.
  intros H1 H2 k t Hk. apply lookup_app_Some in Hk as [Hk|[Hge Hk]].
  - by apply H1.
  - rewrite (H2 _ _ Hk). f_equal. lia.
Qed.

Lemma ids_from_nil (p : string) (start : Z) : ids_from p start [].
Proof. intros k t Hk. by destruct k. Qed.

Lemma ids_from_singleton (p : string) (start : Z) (t : Txn) :
  txn_id t = format_txn_id p start → ids_from p start [t].
Proof.
  intros H k t' Hk. destruct k as [|[|k]]; try done.
  injection Hk as <-. by rewrite Z.add_0_r.
Qed.

(** From a lookup-wise description of the rows of a [for_range] loop. *)
Lemma rows_group_ok (ft p : string) (start : Z) (n : nat) (xs : list Txn) :
  length xs = n ∧
  (∀ k x, xs !! k = Some x →
     fraud_of ft x ∧ txn_id x = format_txn_id p (start + (0 + Z.of_nat k))) →
  Forall (fraud_of ft) xs ∧ ids_from p start xs.
Proof.
  intros [Hlen Hxs]. split.
  - apply Forall_lookup. intros k x Hk. by apply (Hxs k x).
  - intros k x Hk. by apply (Hxs k x).
Qed.

Section Groups.

Context (sha256_hexdigest : string → string).
Context (start : Z) (base_time : datetime) (p : string).

Ltac skip_draws :=
  repeat (apply yields_bind_any; intros ?).

Lemma gen_normal_spec :
  yields (λ t, is_fraud t = false ∧ fraud_type t = None ∧
               txn_id t = format_txn_id p start)
    (gen_normal sha256_hexdigest start base_time p).
Proof. unfold gen_normal. skip_draws. by apply yields_ret. Qed.

Lemma gen_velocity_spec :
  yields (group_ok "velocity_attack" 8 12 p start)
    (gen_velocity sha256_hexdigest start base_time p).
Proof.
  unfold gen_velocity. do 2 (apply yields_bind_any; intros ?).
  apply (yields_bind (λ n, 8 ≤ n < 13)); [by apply yields_integers|].
  intros n Hn.
  eapply yields_mono;
    [|apply (yields_for_range
               (λ i t, fraud_of "velocity_attack" t ∧
                       txn_id t = format_txn_id p (start + i)))].
  - intros xs H. split; [destruct H; lia|].
    exact (rows_group_ok _ _ _ _ _ H).
  - intros i. skip_draws. by apply yields_ret.
Qed.

(** The probes of a card-testing group and its closing purchase. *)
Lemma gen_card_testing_parts :
  yields (λ txns, ∃ probes big,
            txns = probes ++ [big] ∧ (4 ≤ length probes ≤ 7)%nat ∧
            Forall (λ t, 10000 ≤ amount_idr t < 35000) probes ∧
            3000000 ≤ amount_idr big < 10000000 ∧
            Forall (fraud_of "card_testing") txns ∧ ids_from p start txns)
    (gen_card_testing sha256_hexdigest start base_time p).
Proof.
  unfold gen_card_testing. do 2 (apply yields_bind_any; intros ?).
  apply (yields_bind (λ n, 4 ≤ n < 8)); [by apply yields_integers|].
  intros n Hn.
  eapply yields_bind;
    [apply (yields_for_range
              (λ i t, (fraud_of "card_testing" t ∧
                       txn_id t = format_txn_id p (start + i)) ∧
                      10000 ≤ amount_idr t < 35000))|].
  { intros i.
    apply (yields_bind (λ v, 10000 ≤ v < 35000)); [by apply yields_integers|].
    intros amount Ha. skip_draws. by apply yields_ret. }
  intros probes [Hlen Hprobes].
  apply (yields_bind (λ v, 3000000 ≤ v < 10000000));
    [by apply yields_integers|].
  intros big Hbig. skip_draws. apply yields_ret.
  eexists probes, _. split; [reflexivity|].
  destruct (rows_group_ok "card_testing" p start (Z.to_nat n) probes)
    as [Hfr Hids].
  { split; [done|]. intros k x Hk. by apply (Hprobes k x). }
  split; [lia|]. split.
  { apply Forall_lookup. intros k x Hk. by apply (Hprobes k x). }
  split; [done|]. split.
  - apply Forall_app. split; [done|]. by repeat constructor.
  - apply ids_from_app; [done|]. apply ids_from_singleton. cbn.
    f_equal. lia.
Qed.

Lemma gen_card_testing_spec :
  yields (group_ok "card_testing" 5 8 p start)
    (gen_card_testing sha256_hexdigest start base_time p).
Proof.
  eapply yields_mono; [|apply gen_card_testing_parts].
  intros txns (probes & big & -> & Hlen & _ & _ & Hfr & Hids).
  split; [|done]. rewrite length_app. cbn. lia.
Qed.

Lemma collusion_rows_spec k row txns :
  ring_row p start row → ring_rows p start txns →
  yields (λ out, ring_rows p start out ∧ (length out = length txns + k)%nat)
    (collusion_rows k row base_time txns).
Proof.
  intros Hrow. revert txns. induction k as [|k IH]; intros txns [Hfr Hids].
  - apply yields_ret. split; [done|]. lia.
  - cbn [collusion_rows]. do 4 (apply yields_bind_any; intros ?).
    eapply yields_mono; [|apply IH].
    + intros out [Hout Hlen]. split; [done|].
      rewrite length_app in Hlen. cbn in Hlen. lia.
    + destruct (Hrow (Z.of_nat (length txns)) a
                  (add_seconds base_time (a0 * 60 + a1)) a2) as [Hf Hid].
      split.
      * apply Forall_app. split; [done|]. constructor; [done|constructor].
      * apply ids_from_app; [done|]. by apply ids_from_singleton.
Qed.

Lemma collusion_members_spec n m row txns :
  (∀ payer m, ring_row p start (row payer m)) → ring_rows p start txns →
  yields (λ out, ring_rows p start out ∧
                 (length txns + 2 * n ≤ length out ≤ length txns + 3 * n)%nat)
    (collusion_members sha256_hexdigest n m row base_time txns).
Proof.
  intros Hrow. revert m txns.
  induction n as [|n IH]; intros m txns Htxns.
  - apply yields_ret. split; [done|]. lia.
  - cbn [collusion_members]. apply yields_bind_any; intros a.
    apply (yields_bind (λ k, 2 ≤ k < 4)); [by apply yields_integers|].
    intros k Hk.
    eapply yields_bind; [by apply collusion_rows_spec|].
    intros txns' [Htxns' Hlen].
    eapply yields_mono; [|by apply IH].
    intros out [Hout Hlen']. split; [done|]. lia.
Qed.

Lemma gen_collusion_spec :
  yields (group_ok "collusion_ring" 6 15 p start)
    (gen_collusion sha256_hexdigest start base_time p).
Proof.
  unfold gen_collusion. do 2 (apply yields_bind_any; intros ?).
  apply (yields_bind (λ n, 3 ≤ n < 6)); [by apply yields_integers|].
  intros n Hn.
  eapply yields_mono; [|apply collusion_members_spec].
  - intros out [[Hfr Hids] Hlen]. cbn in Hlen. split; [lia|done].
  - intros payer m offset amount ts c. done.
  - split; [constructor|apply ids_from_nil].
Qed.

Lemma gen_geo_spec :
  yields (group_ok "geo_anomaly" 2 2 p start)
    (gen_geo sha256_hexdigest start base_time p).
Proof.
  unfold gen_geo. skip_draws. apply yields_ret.
  split; [cbn; lia|]. split; [by repeat constructor|].
  intros [|[|k]] t Hk; try done; injection Hk as <-; cbn; f_equal; lia.
Qed.

Lemma gen_amount_spec :
  yields (group_ok "amount_anomaly" 1 1 p start)
    (gen_amount sha256_hexdigest start base_time p).
Proof.
  unfold gen_amount. skip_draws. apply yields_ret.
  split; [cbn; lia|]. split; [by repeat constructor|].
  apply ids_from_singleton. done.
Qed.

End Groups.

(** ** Transaction ids are injective in the sequence number *)

Lemma to_uint_not_nil (n : N) : N.to_uint n ≠ Decimal.Nil.
Proof.
  intros E. pose proof (DecimalN.Unsigned.of_to n) as H. rewrite E in H.
  cbn in H. subst n. discriminate E.
Qed.

Lemma parse_str_nat (n : N) : parse_nat (Py.str_nat n) = Some n.
Proof.
  unfold parse_nat, Py.str_nat.
  pose proof (to_uint_not_nil n) as Hn.
  replace (NilZero.string_of_uint (N.to_uint n))
    with (NilEmpty.string_of_uint (N.to_uint n))
    by (by destruct (N.to_uint n)).
  rewrite NilEmpty.usu. cbn. by rewrite DecimalN.Unsigned.of_to.
Qed.

Lemma parse_zeros (k : nat) (s : string) :
  parse_nat (Py.zeros k s) = parse_nat s.
Proof.
  induction k as [|k IH]; [done|].
  rewrite <- IH. unfold parse_nat. cbn.
  by destruct (NilEmpty.uint_of_string (Py.zeros k s)).
Qed.

Lemma zfill_inj (w : nat) (a b : Z) :
  0 ≤ a → 0 ≤ b → Py.zfill w a = Py.zfill w b → a = b.
Proof.
  intros Ha Hb E. unfold Py.zfill in E.
  destruct (Z.ltb_spec a 0), (Z.ltb_spec b 0); try lia.
  apply (f_equal parse_nat) in E.
  rewrite !parse_zeros, !parse_str_nat in E. injection E. lia.
Qed.

Lemma format_txn_id_inj (p : string) (a b : Z) :
  0 ≤ a → 0 ≤ b → format_txn_id p a = format_txn_id p b → a = b.
Proof.
  intros Ha Hb E. unfold format_txn_id in E.
  do 3 apply String.app_inj in E. by apply (zfill_inj 6).
Qed.

Lemma ids_from_NoDup (p : string) (start : Z) (txns : list Txn) :
  0 ≤ start → ids_from p start txns → NoDup (txn_id <$> txns).
Proof.
  intros Hs Hids. apply NoDup_alt. intros i j x Hi Hj.
  rewrite list_lookup_fmap in Hi, Hj.
  destruct (txns !! i) as [ti|] eqn:Ei; [|done].
  destruct (txns !! j) as [tj|] eqn:Ej; [|done].
  cbn in Hi, Hj. injection Hi as Hi. injection Hj as Hj.
  rewrite (Hids _ _ Ei) in Hi. rewrite (Hids _ _ Ej) in Hj.
  rewrite <- Hj in Hi. apply format_txn_id_inj in Hi; lia.
Qed.

(** ** The shuffle is a permutation *)

Lemma swap_Permutation {A} (x : list A) (i j : nat) : swap x i j ≡ₚ x.
Proof.
  unfold swap. destruct (x !! i) as [xi|] eqn:Ei; [|done].
  destruct (x !! j) as [xj|] eqn:Ej; [|done].
  by apply Permutation_insert_swap.
Qed.

Lemma shuffle_from_Permutation {A} (i : nat) (x : list A) :
  yields (λ y, y ≡ₚ x) (shuffle_from i x).
Proof.
  revert x. induction i as [|i IH]; intros x.
  - by apply yields_ret.
  - cbn [shuffle_from]. apply yields_bind_any. intros j.
    eapply yields_mono; [|apply IH].
    intros y Hy. cbn in Hy. by rewrite Hy, swap_Permutation.
Qed.

Lemma shuffle_Permutation {A} (x : list A) : yields (λ y, y ≡ₚ x) (shuffle x).
Proof. apply shuffle_from_Permutation. Qed.

(** ** Shape of the batch *)

Lemma archetype_velocity : "velocity_attack" ∈ ARCHETYPES.
Proof. set_solver. Qed.
Lemma archetype_card_testing : "card_testing" ∈ ARCHETYPES.
Proof. set_solver. Qed.
Lemma archetype_collusion : "collusion_ring" ∈ ARCHETYPES.
Proof. set_solver. Qed.
Lemma archetype_geo : "geo_anomaly" ∈ ARCHETYPES.
Proof. set_solver. Qed.
Lemma archetype_amount : "amount_anomaly" ∈ ARCHETYPES.
Proof. set_solver. Qed.

Section Batch.

Context (sha256_hexdigest : string → string) (default_rng : Z → Generator).
Context (p : string).

Lemma normal_loop_spec base_time n nn acc :
  batch_shape p nn 0 0 acc →
  yields (batch_shape p (nn + n) 0 0)
    (normal_loop sha256_hexdigest n base_time p acc).
Proof.
  revert nn acc. induction n as [|n IH]; intros nn acc Hacc.
  - apply yields_ret. by rewrite Nat.add_0_r.
  - cbn [normal_loop].
    eapply yields_bind; [apply gen_normal_spec|].
    intros t (Hf & Hft & Hid).
    replace (nn + S n)%nat with (S nn + n)%nat by lia. apply IH.
    destruct Hacc as (normals & frauds & E & Hlen & Hn & Hfr & Hb & Hids & Hc).
    destruct frauds; [|cbn in Hb; lia]. rewrite app_nil_r in E.
    exists (normals ++ [t]), []. cbn [fst snd]. rewrite E, app_nil_r.
    repeat split; try done.
    + rewrite length_app. cbn. lia.
    + apply Forall_app. split; [done|]. by repeat constructor.
    + rewrite <- E. apply ids_from_app; [done|]. apply ids_from_singleton.
      rewrite Hid, Hc. done.
    + rewrite Hc, E, length_app. cbn. lia.
Qed.

Lemma group_loop_spec ft lo hi gen n nn flo fhi acc :
  ft ∈ ARCHETYPES →
  (∀ start, yields (group_ok ft lo hi p start) (gen start)) →
  batch_shape p nn flo fhi acc →
  yields (batch_shape p nn (flo + n * lo) (fhi + n * hi))
    (group_loop n gen acc).
Proof.
  intros Hft Hgen. revert flo fhi acc.
  induction n as [|n IH]; intros flo fhi acc Hacc.
  - apply yields_ret. by rewrite !Nat.add_0_r.
  - cbn [group_loop]. eapply yields_bind; [apply Hgen|].
    intros t (Hlen & Hfr & Hids).
    eapply yields_mono; [|apply (IH (flo + lo)%nat (fhi + hi)%nat)].
    + intros acc' (normals & frauds & E & ? & ? & ? & Hb & ? & ?).
      exists normals, frauds. repeat split; try done; lia.
    + destruct Hacc as (normals & frauds & E & Hl & Hn & Hf & Hb & Hi & Hc).
      exists normals, (frauds ++ t). cbn [fst snd]. rewrite E.
      repeat split; try done.
      * by rewrite app_assoc.
      * apply Forall_app. split; [done|].
        eapply Forall_impl; [exact Hfr|]. intros x Hx. by exists ft.
      * rewrite length_app. lia.
      * rewrite length_app. lia.
      * rewrite <- E. apply ids_from_app; [done|]. by rewrite <- Hc.
      * rewrite Hc, <- E, length_app. lia.
Qed.

(** The batch is a permutation of [n_normal] normal transactions followed
    by the fraud groups, numbered 1, 2, ... with prefix [p]. *)
Lemma generate_attack_batch_shape total fraud_pct seed :
  ∃ pre,
    generate_attack_batch sha256_hexdigest default_rng total fraud_pct seed p
      ≡ₚ pre ∧
    batch_shape p
      (Z.to_nat (total - n_fraud_target total fraud_pct))
      (fraud_count_lo (per_type_target total fraud_pct))
      (fraud_count_hi (per_type_target total fraud_pct))
      (pre, 1 + Z.of_nat (length pre)).
Proof.
  unfold generate_attack_batch. cbv zeta.
  fold (n_fraud_target total fraud_pct).
  fold (per_type_target total fraud_pct).
  set (fpt := per_type_target total fraud_pct).
  fold (times (fpt / 10)) (times (fpt / 7)) (times (fpt / 8))
       (times (fpt / 2)) (times fpt).
  match goal with |- ∃ pre, (?m ?g).1 ≡ₚ pre ∧ @?Q pre =>
    assert (yields (λ out, ∃ pre, out ≡ₚ pre ∧ Q pre) m) as H;
      [|exact (H g)] end.
  eapply yields_bind.
  { apply (normal_loop_spec batch_base_time _ 0%nat).
    exists [], [].
    repeat split; first [done | constructor | apply ids_from_nil]. }
  intros acc0 H0. cbn [Nat.add] in H0.
  eapply yields_bind.
  { apply (group_loop_spec "velocity_attack" 8 12);
      [apply archetype_velocity | intros; apply gen_velocity_spec | exact H0]. }
  intros acc1 H1.
  eapply yields_bind.
  { apply (group_loop_spec "card_testing" 5 8);
      [apply archetype_card_testing | intros; apply gen_card_testing_spec
      | exact H1]. }
  intros acc2 H2.
  eapply yields_bind.
  { apply (group_loop_spec "collusion_ring" 6 15);
      [apply archetype_collusion | intros; apply gen_collusion_spec
      | exact H2]. }
  intros acc3 H3.
  eapply yields_bind.
  { apply (group_loop_spec "geo_anomaly" 2 2);
      [apply archetype_geo | intros; apply gen_geo_spec | exact H3]. }
  intros acc4 H4.
  eapply yields_bind.
  { apply (group_loop_spec "amount_anomaly" 1 1);
      [apply archetype_amount | intros; apply gen_amount_spec | exact H4]. }
  intros acc5 H5.
  eapply yields_mono; [|apply shuffle_Permutation].
  intros out Hperm. exists acc5.1. split; [done|].
  destruct H5 as (normals & frauds & E & Hl & Hn & Hf & Hb & Hi & Hc).
  exists normals, frauds. unfold fraud_count_lo, fraud_count_hi.
  repeat split; first [done | lia].
Qed.

End Batch.

(** ** Claims on the generators *)

Lemma ids_from_seqZ (p : string) (start : Z) (txns : list Txn) :
  ids_from p start txns →
  txn_id <$> txns
  = format_txn_id p <$> seqZ start (Z.of_nat (length txns)).
Proof.
  intros Hids. apply list_eq. intros k. rewrite !list_lookup_fmap.
  destruct (txns !! k) as [t|] eqn:E.
  - rewrite lookup_seqZ_lt by (apply lookup_lt_Some in E; lia).
    cbn. f_equal. by apply Hids.
  - rewrite lookup_seqZ_ge by (apply lookup_ge_None in E; lia). done.
Qed.

Lemma normal_txn_labelled (t : Txn) : normal_txn t → labelled t.
Proof.
  intros [Hf Ht]. split.
  - rewrite Hf, Ht. split; [discriminate|done].
  - intros ft E. rewrite Ht in E. discriminate.
Qed.

Lemma fraud_txn_labelled (t : Txn) : fraud_txn t → labelled t.
Proof.
  intros (ft & Hin & Hf & Ht). split.
  - rewrite Hf, Ht. done.
  - intros ft' E. rewrite Ht in E. by injection E as <-.
Qed.

Lemma group_ok_labelled ft lo hi p start txns :
  ft ∈ ARCHETYPES → group_ok ft lo hi p start txns → Forall labelled txns.
Proof.
  intros Hft (_ & Hfr & _). eapply Forall_impl; [exact Hfr|].
  intros t Ht. apply fraud_txn_labelled. by exists ft.
Qed.

Lemma batch_labelled sha256_hexdigest default_rng total fraud_pct seed p :
  Forall labelled
    (generate_attack_batch sha256_hexdigest default_rng total fraud_pct seed p).
Proof.
  destruct (generate_attack_batch_shape sha256_hexdigest default_rng p
              total fraud_pct seed)
    as (pre & Hperm & normals & frauds & E & _ & Hn & Hf & _).
  rewrite Hperm. cbn [fst] in E. rewrite E. apply Forall_app. split.
  - eapply Forall_impl; [exact Hn|]. apply normal_txn_labelled.
  - eapply Forall_impl; [exact Hf|]. apply fraud_txn_labelled.
Qed.

(** C10.  Within one batch all [txn_id] strings are pairwise distinct: they
    are, up to the shuffle, the common run prefix followed by the sequence
    numbers 1, 2, ..., one per transaction; and every group generator
    numbers its transactions consecutively from its [txn_id_start]. *)
Theorem batch_txn_ids_distinct sha256_hexdigest default_rng
    total fraud_pct seed token start base_time g :
  let batch :=
    generate_attack_batch sha256_hexdigest default_rng total fraud_pct seed
      token in
  NoDup (txn_id <$> batch) ∧
  txn_id <$> batch
    ≡ₚ format_txn_id token <$> seqZ 1 (Z.of_nat (length batch)) ∧
  ids_from token start
    (gen_velocity sha256_hexdigest start base_time token g).1 ∧
  ids_from token start
    (gen_card_testing sha256_hexdigest start base_time token g).1 ∧
  ids_from token start
    (gen_collusion sha256_hexdigest start base_time token g).1 ∧
  ids_from token start (gen_geo sha256_hexdigest start base_time token g).1 ∧
  ids_from token start
    (gen_amount sha256_hexdigest start base_time token g).1.
Proof.
  cbv zeta.
  destruct (generate_attack_batch_shape sha256_hexdigest default_rng token
              total fraud_pct seed)
    as (pre & Hperm & normals & frauds & E & _ & _ & _ & _ & Hids & _).
  cbn [fst] in Hids.
  split; [|split].
  - rewrite Hperm. by apply (ids_from_NoDup token 1).
  - rewrite Hperm at 1. rewrite (Permutation_length Hperm).
    by rewrite (ids_from_seqZ token 1 pre Hids).
  - repeat split.
    + apply (gen_velocity_spec sha256_hexdigest start base_time token g).
    + apply (gen_card_testing_spec sha256_hexdigest start base_time token g).
    + apply (gen_collusion_spec sha256_hexdigest start base_time token g).
    + apply (gen_geo_spec sha256_hexdigest start base_time token g).
    + apply (gen_amount_spec sha256_hexdigest start base_time token g).
Qed.

(** C8.  A card-testing group is a run of 4 to 7 probes followed by one
    closing transaction whose amount is at least 50 times the amount of
    every probe, and no other transaction of the group is at least 50 times
    as large as every (other) probe. *)
Theorem card_testing_single_large_purchase sha256_hexdigest
    start base_time token g :
  let txns := (gen_card_testing sha256_hexdigest start base_time token g).1 in
  ∃ probes big,
    txns = probes ++ [big] ∧ (4 ≤ length probes ≤ 7)%nat ∧
    Forall (exceeds_50x big) probes ∧
    dominates_probes txns (length probes) big ∧
    ∀ k t, txns !! k = Some t → dominates_probes txns k t →
           k = length probes.
Proof.
  cbv zeta.
  destruct (gen_card_testing_parts sha256_hexdigest start base_time token g)
    as (probes & big & -> & Hlen & Hprobes & Hbig & _).
  exists probes, big. split; [done|]. split; [done|].
  assert (Forall (exceeds_50x big) probes) as Hex.
  { eapply Forall_impl; [exact Hprobes|]. intros q Hq. cbv beta in Hq.
    unfold exceeds_50x. lia. }
  split; [done|]. split.
  - intros j q Hj _ Hq. rewrite length_app in Hj. cbn in Hj.
    rewrite lookup_app_l in Hq by lia.
    by eapply Forall_lookup_1 in Hex.
  - intros k t Hk Hdom.
    destruct (decide (k < length probes)%nat) as [Hlt|Hge].
    + exfalso. rewrite lookup_app_l in Hk by done.
      set (j := if decide (k = 0)%nat then 1%nat else 0%nat).
      assert (j < length probes)%nat as Hj by (unfold j; case_decide; lia).
      assert (j ≠ k) as Hjk by (unfold j; case_decide; lia).
      destruct (lookup_lt_is_Some_2 probes j Hj) as [q Hq].
      specialize (Hdom j q). rewrite length_app in Hdom. cbn in Hdom.
      rewrite lookup_app_l in Hdom by done.
      specialize (Hdom ltac:(lia) Hjk Hq).
      eapply Forall_lookup_1 in Hk; [|exact Hprobes].
      eapply Forall_lookup_1 in Hq; [|exact Hprobes].
      unfold exceeds_50x in Hdom. cbn in Hk, Hq. lia.
    + apply lookup_lt_Some in Hk. rewrite length_app in Hk. cbn in Hk. lia.
Qed.

(** ** Labels and the keys of the per-type dictionaries *)

Lemma derive_metrics_total (s s' : StatsSnapshot) :
  derive_metrics s = Some s' → total s' = total s.
Proof. rewrite derive_metrics_eq. cbv zeta. by intros [= <-]. Qed.

Lemma derive_metrics_dicts (s s' : StatsSnapshot) :
  derive_metrics s = Some s' →
  per_type s' = per_type s ∧ per_type_total s' = per_type_total s.
Proof. rewrite derive_metrics_eq. cbv zeta. by intros [= <-]. Qed.

Lemma dict_incr_keys (ft : string) (d : gmap (option string) Z) :
  ft ∈ ARCHETYPES → archetype_keys d → archetype_keys (dict_incr (Some ft) d).
Proof.
  intros Hft Hd k Hk. unfold dict_incr in Hk.
  rewrite dom_insert_L in Hk. apply elem_of_union in Hk as [Hk|Hk].
  - apply elem_of_singleton in Hk. subst k. by exists ft.
  - by apply Hd.
Qed.

Lemma keys_closed (txn : Txn) :
  labelled txn → update_closed stats_keys_ok txn.
Proof.
  intros [Hiff Hft] flag s s' [H1 H2] E. unfold update_stats in E.
  apply derive_metrics_dicts in E as [E1 E2].
  unfold stats_keys_ok. rewrite E1, E2. clear E1 E2.
  unfold count_txn. destruct (is_fraud txn) eqn:Hf.
  - destruct (fraud_type txn) as [ft|] eqn:Et.
    + specialize (Hft ft eq_refl).
      destruct flag; cbn; split; auto using dict_incr_keys.
    + by destruct (proj1 Hiff eq_refl).
  - by destruct flag.
Qed.

Lemma new_stats_keys_ok : stats_keys_ok StatsSnapshot_new.
Proof. split; intros k Hk; cbn in Hk; by apply elem_of_dom in Hk as [? ?]. Qed.

Section Filler.

Context (sha256_hexdigest : string → string).
Context (base_time : datetime) (fraud_ratio : Q) (p : string) (counter : Z).

Lemma head_group ft lo hi (txns : list Txn) :
  ft ∈ ARCHETYPES → (1 ≤ lo)%nat → group_ok ft lo hi p counter txns →
  ∃ t, head txns = Some t ∧ labelled t.
Proof.
  intros Hft Hlo Hg. pose proof (group_ok_labelled _ _ _ _ _ _ Hft Hg) as Hl.
  destruct Hg as ([Hlen _] & _ & _).
  destruct txns as [|t txns]; [cbn in Hlen; lia|].
  exists t. split; [done|]. by inversion Hl.
Qed.

Lemma _generate_single_txn_spec :
  yields (λ o, ∃ t, o = Some t ∧ labelled t)
    (_generate_single_txn sha256_hexdigest base_time fraud_ratio p counter).
Proof.
  unfold _generate_single_txn. apply yields_bind_any. intros u.
  destruct (Qlt_le_dec u fraud_ratio).
  - eapply yields_bind; [by apply yields_choice|].
    intros fraud_gen Hin.
    repeat (apply elem_of_cons in Hin as [->|Hin]);
      [..|by apply elem_of_nil in Hin]; cbn.
    + eapply yields_bind; [apply gen_velocity_spec|].
      intros txns H. apply yields_ret.
      destruct H as ([Hlo Hhi] & Hfr & Hids);
      apply (head_group _ 1 (length txns) txns archetype_velocity); [lia|]; repeat split; first [done | lia].
    + eapply yields_bind; [apply gen_card_testing_spec|].
      intros txns H. apply yields_ret.
      destruct H as ([Hlo Hhi] & Hfr & Hids);
      apply (head_group _ 1 (length txns) txns archetype_card_testing); [lia|]; repeat split; first [done | lia].
    + eapply yields_bind; [apply gen_collusion_spec|].
      intros txns H. apply yields_ret.
      destruct H as ([Hlo Hhi] & Hfr & Hids);
      apply (head_group _ 1 (length txns) txns archetype_collusion); [lia|]; repeat split; first [done | lia].
    + eapply yields_bind; [apply gen_geo_spec|].
      intros txns H. apply yields_ret.
      destruct H as ([Hlo Hhi] & Hfr & Hids);
      apply (head_group _ 1 (length txns) txns archetype_geo); [lia|]; repeat split; first [done | lia].
    + eapply yields_bind; [apply gen_amount_spec|].
      intros txns H. apply yields_ret.
      destruct H as ([Hlo Hhi] & Hfr & Hids);
      apply (head_group _ 1 (length txns) txns archetype_amount); [lia|]; repeat split; first [done | lia].
  - eapply yields_bind; [apply gen_normal_spec|].
    intros t (Hf & Ht & _). apply yields_ret. exists t. split; [done|].
    by apply normal_txn_labelled.
Qed.

End Filler.

(** C9.  Every generated transaction has [is_fraud] set exactly when its
    [fraud_type] is not [None], the type then being one of the five archetype
    names: for [gen_normal], the five archetype generators, every element of
    a batch, and the transaction the filler generates.  Hence the [per_type]
    and [per_type_total] dictionaries of a run are keyed by archetype names
    only, in the live stats object and in every snapshot sent out. *)
Theorem fraud_labels_well_formed sha256_hexdigest default_rng
    total fraud_pct seed token start base_time fraud_ratio g env config st :
  idle st →
  labelled (gen_normal sha256_hexdigest start base_time token g).1 ∧
  Forall labelled (gen_velocity sha256_hexdigest start base_time token g).1 ∧
  Forall labelled
    (gen_card_testing sha256_hexdigest start base_time token g).1 ∧
  Forall labelled (gen_collusion sha256_hexdigest start base_time token g).1 ∧
  Forall labelled (gen_geo sha256_hexdigest start base_time token g).1 ∧
  Forall labelled (gen_amount sha256_hexdigest start base_time token g).1 ∧
  Forall labelled
    (generate_attack_batch sha256_hexdigest default_rng total fraud_pct seed
       token) ∧
  (∃ t, (_generate_single_txn sha256_hexdigest base_time fraud_ratio token
           start g).1 = Some t ∧ labelled t) ∧
  let st' := (run_attack sha256_hexdigest default_rng env config st).2 in
  stats_keys_ok (current_stats st') ∧
  ∀ s, EvStatsUpdate s ∈ emitted st' ∨ EvAttackEnd s ∈ emitted st' →
       stats_keys_ok s.
Proof.
  intros [Hrun Hev].
  split.
  { destruct (gen_normal_spec sha256_hexdigest start base_time token g)
      as (? & ? & _).
    by apply normal_txn_labelled. }
  split.
  { eapply group_ok_labelled; [apply archetype_velocity|].
    apply (gen_velocity_spec sha256_hexdigest start base_time token g). }
  split.
  { eapply group_ok_labelled; [apply archetype_card_testing|].
    apply (gen_card_testing_spec sha256_hexdigest start base_time token g). }
  split.
  { eapply group_ok_labelled; [apply archetype_collusion|].
    apply (gen_collusion_spec sha256_hexdigest start base_time token g). }
  split.
  { eapply group_ok_labelled; [apply archetype_geo|].
    apply (gen_geo_spec sha256_hexdigest start base_time token g). }
  split.
  { eapply group_ok_labelled; [apply archetype_amount|].
    apply (gen_amount_spec sha256_hexdigest start base_time token g). }
  split; [apply batch_labelled|].
  split.
  { apply (_generate_single_txn_spec sha256_hexdigest base_time fraud_ratio
             token start g). }
  destruct (sound_run_attack sha256_hexdigest default_rng stats_keys_ok
              env config st) as [Hc Hall].
  { apply new_stats_keys_ok. }
  { eapply Forall_impl; [apply batch_labelled|]. apply keys_closed. }
  { done. }
  { rewrite Hev. constructor. }
  cbn zeta. split; [done|].
  rewrite Forall_forall in Hall.
  intros s [Hin|Hin]; exact (Hall _ Hin).
Qed.

Lemma fraud_labels_well_formed_witness :
  idle fresh_state ∧
  Forall labelled
    (generate_attack_batch sample_sha256 sample_rng 100 (1 # 10) 42 "a1b2").
Proof.
  split; [by split|].
  exact (proj1 (proj2 (proj2 (proj2 (proj2 (proj2 (proj2
    (fraud_labels_well_formed sample_sha256 sample_rng 100 (1 # 10) 42
       "a1b2" 1 batch_base_time (8 # 100) (sample_rng 7) env_down
       sample_config fresh_state (conj eq_refl eq_refl))))))))).
Defined.

(** ** The run prefix reaches nothing but the ids *)

Lemma swap_Forall2 {A B} (R : A → B → Prop) (x : list A) (y : list B)
    (i j : nat) :
  Forall2 R x y → Forall2 R (swap x i j) (swap y i j).
Proof.
  intros H. unfold swap.
  destruct (x !! i) as [xi|] eqn:Exi.
  - destruct (Forall2_lookup_l _ _ _ _ _ H Exi) as (yi & -> & Hi).
    destruct (x !! j) as [xj|] eqn:Exj.
    + destruct (Forall2_lookup_l _ _ _ _ _ H Exj) as (yj & -> & Hj).
      by repeat apply Forall2_insert.
    + apply lookup_ge_None in Exj. rewrite (Forall2_length _ _ _ H) in Exj.
      apply lookup_ge_None in Exj. by rewrite Exj.
  - apply lookup_ge_None in Exi. rewrite (Forall2_length _ _ _ H) in Exi.
    apply lookup_ge_None in Exi. by rewrite Exi.
Qed.

Lemma shuffle_from_coupled {A B} (R : A → B → Prop) (i : nat)
    (x : list A) (y : list B) :
  Forall2 R x y → coupled (Forall2 R) (shuffle_from i x) (shuffle_from i y).
Proof.
  revert x y. induction i as [|i IH]; intros x y H.
  - by apply coupled_ret.
  - cbn [shuffle_from]. apply coupled_bind_same. intros j.
    by apply IH, swap_Forall2.
Qed.

Lemma shuffle_coupled {A B} (R : A → B → Prop) (x : list A) (y : list B) :
  Forall2 R x y → coupled (Forall2 R) (shuffle x) (shuffle y).
Proof.
  intros H. unfold shuffle. rewrite (Forall2_length _ _ _ H).
  by apply shuffle_from_coupled.
Qed.

Lemma for_range_coupled {A B} (R : A → B → Prop) (start : Z) (n : nat)
    (b1 : Z → Rand A) (b2 : Z → Rand B) :
  (∀ i, coupled R (b1 i) (b2 i)) →
  coupled (Forall2 R) (for_range start n b1) (for_range start n b2).
Proof.
  intros Hb. revert start. induction n as [|n IH]; intros start.
  - apply coupled_ret. constructor.
  - cbn [for_range]. eapply coupled_bind; [apply Hb|].
    intros x y Hxy. eapply coupled_bind; [apply IH|].
    intros xs ys Hxs. apply coupled_ret. by constructor.
Qed.

Section Prefix.

Context (sha256_hexdigest : string → string) (default_rng : Z → Generator).
Context (p1 p2 : string).

#[local] Abbreviation R := (same_but_prefix p1 p2).

Ltac same_draws := repeat (apply coupled_bind_same; intros ?).

Ltac same_row :=
  apply coupled_ret; split; [reflexivity | eexists; split; reflexivity].

Lemma gen_normal_coupled i base_time :
  coupled R (gen_normal sha256_hexdigest i base_time p1)
            (gen_normal sha256_hexdigest i base_time p2).
Proof. unfold gen_normal. same_draws. same_row. Qed.

Lemma gen_velocity_coupled i base_time :
  coupled (Forall2 R) (gen_velocity sha256_hexdigest i base_time p1)
                      (gen_velocity sha256_hexdigest i base_time p2).
Proof.
  unfold gen_velocity. same_draws. apply for_range_coupled.
  intros k. same_draws. same_row.
Qed.

Lemma gen_card_testing_coupled i base_time :
  coupled (Forall2 R) (gen_card_testing sha256_hexdigest i base_time p1)
                      (gen_card_testing sha256_hexdigest i base_time p2).
Proof.
  unfold gen_card_testing. do 3 (apply coupled_bind_same; intros ?).
  eapply coupled_bind.
  { apply (for_range_coupled R). intros k. same_draws. same_row. }
  intros xs ys Hxs. same_draws. apply coupled_ret.
  apply Forall2_app; [done|]. constructor; [|constructor].
  split; [reflexivity | eexists; split; reflexivity].
Qed.

Lemma collusion_rows_coupled k row1 row2 base_time txns1 txns2 :
  (∀ offset amount ts c,
     R (row1 offset amount ts c) (row2 offset amount ts c)) →
  Forall2 R txns1 txns2 →
  coupled (Forall2 R) (collusion_rows k row1 base_time txns1)
                      (collusion_rows k row2 base_time txns2).
Proof.
  intros Hrow. revert txns1 txns2.
  induction k as [|k IH]; intros txns1 txns2 H.
  - by apply coupled_ret.
  - cbn [collusion_rows]. same_draws. apply IH.
    apply Forall2_app; [done|]. constructor; [|constructor].
    rewrite (Forall2_length _ _ _ H). apply Hrow.
Qed.

Lemma collusion_members_coupled n m row1 row2 base_time txns1 txns2 :
  (∀ payer m offset amount ts c,
     R (row1 payer m offset amount ts c) (row2 payer m offset amount ts c)) →
  Forall2 R txns1 txns2 →
  coupled (Forall2 R)
    (collusion_members sha256_hexdigest n m row1 base_time txns1)
    (collusion_members sha256_hexdigest n m row2 base_time txns2).
Proof.
  intros Hrow. revert m txns1 txns2.
  induction n as [|n IH]; intros m txns1 txns2 H.
  - by apply coupled_ret.
  - cbn [collusion_members]. same_draws.
    eapply coupled_bind; [by apply collusion_rows_coupled|].
    intros xs ys Hxs. by apply IH.
Qed.

Lemma gen_collusion_coupled i base_time :
  coupled (Forall2 R) (gen_collusion sha256_hexdigest i base_time p1)
                      (gen_collusion sha256_hexdigest i base_time p2).
Proof.
  unfold gen_collusion. same_draws. apply collusion_members_coupled.
  - intros payer m offset amount ts c.
    split; [reflexivity | eexists; split; reflexivity].
  - constructor.
Qed.

Lemma gen_geo_coupled i base_time :
  coupled (Forall2 R) (gen_geo sha256_hexdigest i base_time p1)
                      (gen_geo sha256_hexdigest i base_time p2).
Proof.
  unfold gen_geo. same_draws. apply coupled_ret.
  repeat constructor; try reflexivity; eexists; split; reflexivity.
Qed.

Lemma gen_amount_coupled i base_time :
  coupled (Forall2 R) (gen_amount sha256_hexdigest i base_time p1)
                      (gen_amount sha256_hexdigest i base_time p2).
Proof.
  unfold gen_amount. same_draws. apply coupled_ret.
  repeat constructor; try reflexivity; eexists; split; reflexivity.
Qed.

Lemma normal_loop_coupled n base_time a1 a2 :
  acc_rel p1 p2 a1 a2 →
  coupled (acc_rel p1 p2) (normal_loop sha256_hexdigest n base_time p1 a1)
                  (normal_loop sha256_hexdigest n base_time p2 a2).
Proof.
  revert a1 a2. induction n as [|n IH]; intros a1 a2 [Hl Hc].
  - by apply coupled_ret.
  - cbn [normal_loop]. rewrite Hc.
    eapply coupled_bind; [apply gen_normal_coupled|].
    intros t1 t2 Ht. apply IH. split; cbn [fst snd]; [|done].
    apply Forall2_app; [done|]. constructor; [done|constructor].
Qed.

Lemma group_loop_coupled n gen1 gen2 a1 a2 :
  (∀ i, coupled (Forall2 R) (gen1 i) (gen2 i)) →
  acc_rel p1 p2 a1 a2 →
  coupled (acc_rel p1 p2) (group_loop n gen1 a1) (group_loop n gen2 a2).
Proof.
  intros Hgen. revert a1 a2. induction n as [|n IH]; intros a1 a2 [Hl Hc].
  - by apply coupled_ret.
  - cbn [group_loop]. rewrite Hc.
    eapply coupled_bind; [apply Hgen|].
    intros t1 t2 Ht. apply IH. split; cbn [fst snd].
    + by apply Forall2_app.
    + by rewrite (Forall2_length _ _ _ Ht).
Qed.

Lemma batch_coupled total fraud_pct seed :
  Forall2 R
    (generate_attack_batch sha256_hexdigest default_rng total fraud_pct seed
       p1)
    (generate_attack_batch sha256_hexdigest default_rng total fraud_pct seed
       p2).
Proof.
  unfold generate_attack_batch. cbv zeta.
  match goal with |- Forall2 R (?m1 ?g).1 (?m2 ?g).1 =>
    assert (coupled (Forall2 R) m1 m2) as H; [|exact (proj1 (H g))] end.
  eapply coupled_bind.
  { apply normal_loop_coupled. split; [constructor|done]. }
  intros a1 a2 Ha. eapply coupled_bind.
  { apply group_loop_coupled; [|exact Ha].
    intros i. apply gen_velocity_coupled. }
  clear a1 a2 Ha. intros a1 a2 Ha. eapply coupled_bind.
  { apply group_loop_coupled; [|exact Ha].
    intros i. apply gen_card_testing_coupled. }
  clear a1 a2 Ha. intros a1 a2 Ha. eapply coupled_bind.
  { apply group_loop_coupled; [|exact Ha].
    intros i. apply gen_collusion_coupled. }
  clear a1 a2 Ha. intros a1 a2 Ha. eapply coupled_bind.
  { apply group_loop_coupled; [|exact Ha].
    intros i. apply gen_geo_coupled. }
  clear a1 a2 Ha. intros a1 a2 Ha. eapply coupled_bind.
  { apply group_loop_coupled; [|exact Ha].
    intros i. apply gen_amount_coupled. }
  clear a1 a2 Ha. intros a1 a2 [Ha _]. by apply shuffle_coupled.
Qed.

End Prefix.

(** C6.  Two calls with the same [total], [fraud_pct] and [seed] return
    sequences that agree, position by position, on every field except
    [txn_id], where the ids differ in the run prefix only: the same sequence
    number stands behind each prefix. *)
Theorem batch_prefix_independent sha256_hexdigest default_rng
    total fraud_pct seed p1 p2 :
  let b1 :=
    generate_attack_batch sha256_hexdigest default_rng total fraud_pct seed
      p1 in
  let b2 :=
    generate_attack_batch sha256_hexdigest default_rng total fraud_pct seed
      p2 in
  Forall2 (same_but_prefix p1 p2) b1 b2 ∧
  erase_id <$> b1 = erase_id <$> b2.
Proof.
  cbv zeta.
  pose proof (batch_coupled sha256_hexdigest default_rng p1 p2
                total fraud_pct seed) as H.
  split; [done|].
  induction H as [|t1 t2 l1 l2 [E _] _ IH]; [done|].
  cbn. by rewrite E, IH.
Qed.

(** ** Runs whose persistence does not fail *)

Lemma bind_ok {A B} (m : Run A) (k : A → Run B) st a st' :
  m st = (Ok a, st') → (m ≫= k) st = k a st'.
Proof. intros E. unfold mbind, run_bind. by rewrite E. Qed.

Lemma db_commit_ok env st :
  commit_ok env (ses_commit_calls (session st)) = true →
  ∃ ses, db_commit env st
         = (Ok (), mkRunState (attack_running st) (current_stats st) ses
                     (emitted st)) ∧
         ses_rows ses = ses_rows (session st) ∧
         ses_durable_rows ses = length (ses_rows ses).
Proof. intros H. unfold db_commit. rewrite H. by eexists. Qed.

Lemma process_txn_ok env threshold attack_run delay n i txn st :
  (db env = true → (i mod 50 =? 0)%nat = true →
   commit_ok env (ses_commit_calls (session st)) = true) →
  counters_nonneg (current_stats st) →
  ∃ st' evs,
    process_txn env threshold attack_run delay n i txn st = (Ok (), st') ∧
    attack_running st' = attack_running st ∧
    update_stats txn (score_txn env threshold i txn).2 (current_stats st)
      = Some (current_stats st') ∧
    emitted st'
      = emitted st ++ EvTransaction (scored_event env threshold i txn) :: evs ∧
    Forall (λ e, ∃ s, e = EvStatsUpdate s) evs ∧
    ses_rows (session st')
      = ses_rows (session st)
        ++ (if db env then [mkRow (scored_event env threshold i txn) attack_run]
            else []).
Proof.
  intros Hcommit Hnn. unfold process_txn, scored_event.
  set (c := (i mod 10 =? 0)%nat || (Z.of_nat i =? Z.of_nat n - 1)).
  destruct (score_txn env threshold i txn) as [score flag]. cbn [fst snd].
  destruct (update_stats_spec txn flag (current_stats st) Hnn)
    as (s' & E & _).
  set (data := mkTxnEvent txn score flag (explain env i txn score flag)).
  assert (∃ ses,
    (if db env
     then modify_session (add_row (mkRow data attack_run));;
          (if (i mod 50 =? 0)%nat then db_commit env else mret ())
     else mret ()) st
    = (Ok (), mkRunState (attack_running st) (current_stats st) ses
                (emitted st)) ∧
    ses_rows ses
    = ses_rows (session st)
      ++ (if db env then [mkRow data attack_run] else []))
    as (ses & Hdb & Hrows).
  { destruct (db env).
    - destruct (i mod 50 =? 0)%nat.
      + destruct (db_commit_ok env
                    (mkRunState (attack_running st) (current_stats st)
                       (add_row (mkRow data attack_run) (session st))
                       (emitted st))) as (ses & Hc & Hr & _).
        { by apply Hcommit. }
        exists ses. split; [|done].
        unfold mbind, run_bind, modify_session. exact Hc.
      + by eexists.
    - exists (session st). rewrite app_nil_r. by destruct st. }
  rewrite (bind_ok _ _ _ _ _ Hdb).
  unfold update_current_stats, mbind, run_bind. cbn [current_stats].
  rewrite E. destruct c; cbn.
  - eexists _, [_]. split; [reflexivity|]. cbn.
    rewrite <- app_assoc. repeat split; try done.
    repeat constructor. by eexists.
  - eexists _, []. split; [reflexivity|]. by repeat split.
Qed.

Lemma process_all_ok env threshold attack_run delay n txns i st :
  (db env = true → ∀ k, commit_ok env k = true) →
  counters_nonneg (current_stats st) →
  ∃ st' evs,
    process_all env threshold attack_run delay n i txns st = (Ok (), st') ∧
    attack_running st' = attack_running st ∧
    replay (flags env threshold i txns) (current_stats st)
      = Some (current_stats st') ∧
    counters_nonneg (current_stats st') ∧
    emitted st' = emitted st ++ evs ∧
    txn_events env threshold i txns ⊆ evs ∧
    ses_rows (session st')
      = ses_rows (session st)
        ++ (if db env then rows_of env threshold attack_run i txns else []).
Proof.
  intros Hcommit. revert i st.
  induction txns as [|txn rest IH]; intros i st Hnn.
  - exists st, []. cbn. rewrite !app_nil_r.
    repeat (split; [done|]). destruct (db env); by rewrite app_nil_r.
  - cbn [process_all flags replay txn_events rows_of].
    destruct (process_txn_ok env threshold attack_run delay n i txn st)
      as (st1 & evs1 & E1 & Hrun1 & Hup1 & Hev1 & _ & Hrows1); [auto|done|].
    assert (counters_nonneg (current_stats st1)) as Hnn1.
    { destruct (update_stats_spec txn (score_txn env threshold i txn).2
                  (current_stats st) Hnn) as (s' & E & _ & Hs' & _).
      rewrite E in Hup1. by injection Hup1 as <-. }
    destruct (IH (S i) st1 Hnn1)
      as (st2 & evs2 & E2 & Hrun2 & Hup2 & Hnn2 & Hev2 & Hsub2 & Hrows2).
    exists st2, (EvTransaction (scored_event env threshold i txn)
                 :: evs1 ++ evs2).
    rewrite (bind_ok _ _ _ _ _ E1), Hup1. cbn [mbind option_bind].
    split; [done|]. split; [congruence|]. split; [done|]. split; [done|].
    split; [|split].
    + rewrite Hev2, Hev1, <- app_assoc. done.
    + intros e He. apply elem_of_cons in He as [->|He]; [left|].
      right. apply elem_of_app. right. by apply Hsub2.
    + rewrite Hrows2, Hrows1, <- app_assoc. by destruct (db env).
Qed.

Section Quiet.

Context (env : Env).

Lemma quiet_skip : quiet (mret ()).
Proof. intros st. exists (session st). by destruct st. Qed.

Lemma quiet_commit : (∀ k, commit_ok env k = true) → quiet (db_commit env).
Proof.
  intros Hc st. destruct (db_commit_ok env st) as (ses & E & Hr & Hd); [auto|].
  by exists ses.
Qed.

Lemma quiet_write (f : AttackRun → AttackRun) :
  (∀ k, commit_ok env k = true) →
  quiet (modify_session (write_run f);; db_commit env).
Proof.
  intros Hc st.
  destruct (db_commit_ok env
              (mkRunState (attack_running st) (current_stats st)
                 (write_run f (session st)) (emitted st)))
    as (ses & E & Hr & Hd); [auto|].
  by exists ses.
Qed.

Lemma quiet_set_mode (attack_run : bool) (mode : string) :
  (db env = true → ∀ k, commit_ok env k = true) →
  quiet (if attack_run && db env
         then modify_session (write_run (set_mode mode));; db_commit env
         else mret ()).
Proof.
  intros Hc. destruct attack_run; [|apply quiet_skip].
  destruct (db env); [|apply quiet_skip]. apply quiet_write. auto.
Qed.

(** The final commit: with a session, every row is committed after it. *)
Lemma flush_ok st :
  (db env = true → ∀ k, commit_ok env k = true) →
  ∃ ses,
    (if db env then db_commit env else mret ()) st
    = (Ok (), mkRunState (attack_running st) (current_stats st) ses
                (emitted st)) ∧
    ses_rows ses = ses_rows (session st) ∧
    (db env = true → ses_durable_rows ses = length (ses_rows ses)).
Proof.
  intros Hc. destruct (db env).
  - destruct (db_commit_ok env st) as (ses & E & Hr & Hd); [auto|].
    by exists ses.
  - exists (session st). by destruct st.
Qed.

Lemma quiet_finalise (attack_run : bool) :
  (db env = true → ∀ k, commit_ok env k = true) →
  quiet (if attack_run && db env
         then s ← get_current_stats;
              modify_session (write_run (set_completed s));;
              db_commit env
         else mret ()).
Proof.
  intros Hc. destruct attack_run; [|apply quiet_skip].
  destruct (db env); [|apply quiet_skip].
  intros st.
  destruct (quiet_write (set_completed (current_stats st))
              ltac:(auto) st) as (ses & E & Hr & Hd).
  by exists ses.
Qed.

End Quiet.

Lemma yield_bind {B} (e : Event) (k : unit → Run B) st :
  (yield e ≫= k) st
  = k () (mkRunState (attack_running st) (current_stats st) (session st)
            (emitted st ++ [e])).
Proof. reflexivity. Qed.

Lemma ret_bind {A B} (a : A) (k : A → Run B) st : (mret a ≫= k) st = k a st.
Proof. reflexivity. Qed.

Lemma yield_ret_bind {A B} (e : Event) (a : A) (k : A → Run B) st :
  ((yield e;; mret a) ≫= k) st
  = k a (mkRunState (attack_running st) (current_stats st) (session st)
           (emitted st ++ [e])).
Proof. reflexivity. Qed.

Section Completes.

Context (sha256_hexdigest : string → string) (default_rng : Z → Generator).

Lemma stream_batch_ok env config delay attack_run mode threshold st :
  (db env = true → ∀ k, commit_ok env k = true) →
  counters_nonneg (current_stats st) →
  ∃ st',
    stream_batch sha256_hexdigest default_rng env config delay attack_run
      mode threshold st = (Ok (), st') ∧
    streamed sha256_hexdigest default_rng env config attack_run threshold st st'.
Proof.
  intros Hc Hnn. unfold stream_batch, streamed. cbv zeta.
  set (batch := generate_attack_batch _ _ _ _ _ _).
  destruct (quiet_set_mode env attack_run mode Hc st)
    as (ses1 & E1 & Hr1 & _).
  rewrite (bind_ok _ _ _ _ _ E1). rewrite !yield_bind.
  cbn [attack_running current_stats session emitted].
  match goal with |- context [mbind _ (process_all _ _ _ _ _ _ _) ?stx] =>
    destruct (process_all_ok env threshold attack_run delay (length batch)
                batch 0%nat stx Hc Hnn)
      as (st2 & evs & E2 & Hrun2 & Hup2 & Hnn2 & Hev2 & Hsub2 & Hrows2) end.
  rewrite (bind_ok _ _ _ _ _ E2).
  destruct (flush_ok env st2 Hc) as (ses3 & E3 & Hr3 & Hd3).
  rewrite (bind_ok _ _ _ _ _ E3).
  match goal with |- context [mbind _ _ ?stx] =>
    destruct (quiet_finalise env attack_run Hc stx)
      as (ses4 & E4 & Hr4 & Hd4) end.
  rewrite (bind_ok _ _ _ _ _ E4).
  cbn [attack_running current_stats session emitted] in *.
  eexists. split; [reflexivity|].
  cbn [attack_running current_stats session emitted].
  split; [done|]. split; [done|]. split; [|split].
  - eexists (_ :: _ :: _ :: evs ++ [_]). split.
    + rewrite Hev2. cbn [app]. rewrite <- !app_assoc. reflexivity.
    + intros e He. do 3 (apply elem_of_cons; right).
      apply elem_of_app. left. by apply Hsub2.
  - by rewrite Hr4, Hr3, Hrows2, Hr1.
  - intros Hdb. auto.
Qed.

Lemma streamed_more_events env config attack_run threshold st0 st st' evs0 :
  attack_running st = attack_running st0 →
  current_stats st = current_stats st0 →
  ses_rows (session st) = ses_rows (session st0) →
  emitted st = emitted st0 ++ evs0 →
  streamed sha256_hexdigest default_rng env config attack_run threshold st st' →
  streamed sha256_hexdigest default_rng env config attack_run threshold st0 st'.
Proof.
  intros Hr Hs Hrows Hev (H1 & H2 & (evs & H3 & H4) & H5).
  unfold streamed. rewrite <- Hr, <- Hs, <- Hrows.
  split; [done|]. split; [done|]. split; [|done].
  exists (evs0 ++ evs). split.
  - rewrite H3, Hev, <- !app_assoc. done.
  - intros e He. apply elem_of_app. right. by apply H4.
Qed.

Lemma run_body_ok env config delay attack_run st :
  (db env = true → ∀ k, commit_ok env k = true) →
  counters_nonneg (current_stats st) →
  ∃ st',
    run_body sha256_hexdigest default_rng env config delay attack_run st
      = (Ok (), st') ∧
    streamed sha256_hexdigest default_rng env config attack_run (threshold_of env) st st'.
Proof.
  intros Hc Hnn. unfold run_body, fetch_model_info, threshold_of.
  rewrite yield_bind.
  assert (∀ mode thr stx evs0,
    attack_running stx = attack_running st →
    current_stats stx = current_stats st →
    ses_rows (session stx) = ses_rows (session st) →
    emitted stx = emitted st ++ evs0 →
    ∃ st',
      stream_batch sha256_hexdigest default_rng env config delay attack_run
        mode thr stx = (Ok (), st') ∧
      streamed sha256_hexdigest default_rng env config attack_run thr st st') as Hrest.
  { intros mode thr stx evs0 H1 H2 H3 H4.
    destruct (stream_batch_ok env config delay attack_run mode thr stx Hc)
      as (st' & E & Hst); [by rewrite H2|].
    exists st'. split; [done|]. by eapply streamed_more_events. }
  destruct (health_check env); rewrite ?ret_bind, ?yield_bind;
    destruct (get_model_info env) as [[m t]|];
    cbv zeta; rewrite yield_ret_bind;
    eapply Hrest; try reflexivity;
    cbn [emitted]; rewrite <- ?app_assoc; reflexivity.
Qed.

(** A run on reliable persistence returns normally, with the guard
    released. *)
Lemma run_attack_completes env config st :
  attack_running st = false → db_reliable env →
  ∃ st',
    run_attack sha256_hexdigest default_rng env config st = (Ok (), st') ∧
    attack_running st' = false ∧
    streamed sha256_hexdigest default_rng env config (db env) (threshold_of env)
      (mkRunState false StatsSnapshot_new (session st) (emitted st)) st'.
Proof.
  intros Hidle Hrel. rewrite run_attack_idle by done.
  unfold run_started, persist_header.
  assert (db env = true → ∀ k, commit_ok env k = true) as Hc.
  { intros Hdb. destruct Hrel as [Hn|[Hc _]]; [congruence|done]. }
  assert (∃ st1,
    (if db env
     then modify_session (add_run
            (mkAttackRun (config_total config) (config_fraud_pct config)
               (config_speed config) "running" None None false));;
          db_commit env;; db_refresh env;; mret true
     else mret false)
      (mkRunState true StatsSnapshot_new (session st) (emitted st))
    = (Ok (db env), st1) ∧
    attack_running st1 = true ∧ current_stats st1 = StatsSnapshot_new ∧
    emitted st1 = emitted st ∧
    ses_rows (session st1) = ses_rows (session st)) as (st1 & E1 & Hst1).
  { destruct (db env) eqn:Hdb;
      [|eexists; split; [reflexivity|]; by repeat split].
    destruct Hrel as [|[Hcommit Hrefresh]]; [congruence|].
    unfold mbind, run_bind, modify_session, db_commit, db_refresh. cbn.
    rewrite Hcommit, Hrefresh.
    eexists; split; [reflexivity|]; by repeat split. }
  rewrite (bind_ok _ _ _ _ _ E1).
  destruct Hst1 as (Hr1 & Hs1 & He1 & Hrows1).
  destruct (run_body_ok env config (delay_of (config_speed config)) (db env)
              st1 Hc) as (st2 & E2 & Hst2).
  { rewrite Hs1. apply new_stats_consistent. }
  unfold try_finally, try_except. rewrite E2. cbn.
  eexists. split; [reflexivity|]. split; [done|].
  destruct Hst2 as (H1 & H2 & (evs & H3 & H4) & H5).
  unfold streamed. cbn [attack_running current_stats session emitted].
  rewrite Hs1 in H2. rewrite He1 in H3. rewrite Hrows1 in H5.
  split; [done|]. split; [done|]. split; [by exists evs|done].
Qed.

End Completes.

(** ** End to end with a scorer that flags exactly the frauds *)

Lemma fraud_count_Permutation (l l' : list Txn) :
  l ≡ₚ l' → fraud_count l = fraud_count l'.
Proof.
  unfold fraud_count. induction 1 as [|x l l' _ IH|x y l|l l' l'' _ IH1 _ IH2].
  - done.
  - cbn. destruct (is_fraud x); cbn; by rewrite IH.
  - cbn. by destruct (is_fraud x), (is_fraud y).
  - by rewrite IH1.
Qed.

Lemma fraud_count_app (l l' : list Txn) :
  fraud_count (l ++ l') = (fraud_count l + fraud_count l')%nat.
Proof. unfold fraud_count. by rewrite List.filter_app, length_app. Qed.

Lemma fraud_count_normals (l : list Txn) :
  Forall normal_txn l → fraud_count l = 0%nat.
Proof.
  unfold fraud_count. induction 1 as [|x l [Hx _] _ IH]; [done|].
  cbn. by rewrite Hx.
Qed.

Lemma fraud_count_frauds (l : list Txn) :
  Forall fraud_txn l → fraud_count l = length l.
Proof.
  unfold fraud_count. induction 1 as [|x l (ft & _ & Hx & _) _ IH]; [done|].
  cbn. rewrite Hx. cbn. by rewrite IH.
Qed.

(** Size of a batch: [n_normal] normal transactions and a fraud count
    within the bounds of the five loops. *)
Lemma batch_size sha256_hexdigest default_rng total fraud_pct seed p :
  let batch :=
    generate_attack_batch sha256_hexdigest default_rng total fraud_pct seed p in
  length batch
    = (Z.to_nat (total - n_fraud_target total fraud_pct)
       + fraud_count batch)%nat ∧
  (fraud_count_lo (per_type_target total fraud_pct) ≤ fraud_count batch
   ≤ fraud_count_hi (per_type_target total fraud_pct))%nat.
Proof.
  cbv zeta.
  destruct (generate_attack_batch_shape sha256_hexdigest default_rng p
              total fraud_pct seed)
    as (pre & Hperm & normals & frauds & E & Hlen & Hn & Hf & Hb & _).
  cbn [fst] in E.
  rewrite (fraud_count_Permutation _ _ Hperm), (Permutation_length Hperm), E.
  rewrite fraud_count_app, length_app, (fraud_count_normals _ Hn),
    (fraud_count_frauds _ Hf), Hlen.
  split; [done|]. lia.
Qed.

Lemma flags_stub env threshold i txns :
  flags_iff_fraud env →
  flags env threshold i txns = (λ t, (t, is_fraud t)) <$> txns.
Proof.
  intros Hstub. revert i. induction txns as [|t txns IH]; intros i; [done|].
  cbn [flags fmap list_fmap]. rewrite IH. do 2 f_equal.
  unfold score_txn. by destruct (Hstub i t) as [q ->].
Qed.

(** Replaying a perfectly scored sequence: only [tp] and [tn] move. *)
Lemma replay_perfect (txns : list Txn) (s : StatsSnapshot) :
  counters_nonneg s →
  ∃ s', replay ((λ t, (t, is_fraud t)) <$> txns) s = Some s' ∧
        counters_nonneg s' ∧
        total s' = total s + Z.of_nat (length txns) ∧
        tp s' = tp s + Z.of_nat (fraud_count txns) ∧
        fp s' = fp s ∧ fn s' = fn s ∧
        (txns ≠ [] → metrics_ok s').
Proof.
  revert s. induction txns as [|t txns IH]; intros s Hs.
  - exists s. cbn. repeat (split; [done || lia|]). done.
  - cbn [fmap list_fmap replay].
    destruct (update_stats_spec t (is_fraud t) s Hs)
      as (s1 & E1 & Hsame & Hnn1 & Hm1).
    rewrite E1. cbn [mbind option_bind].
    destruct (IH s1 Hnn1) as (s' & E' & Hnn' & Ht & Htp & Hfp & Hfn & Hm').
    exists s'. split; [done|]. split; [done|].
    destruct Hsame as (Et & _ & _ & Etp & Efp & _ & Efn & _).
    unfold count_txn in Et, Etp, Efp, Efn. unfold fraud_count in *.
    cbn [List.filter length].
    destruct (is_fraud t); cbn in Et, Etp, Efp, Efn |- *;
      (repeat (split; [lia|]));
      intros _; (destruct txns; [by injection E' as <-|by apply Hm']).
Qed.

Lemma float_one (x : Q) : (x == 1)%Q → Py.float x = 1%Q.
Proof. intros E. by rewrite (float_proper _ _ E). Qed.

Lemma perfect_metrics (s : StatsSnapshot) :
  metrics_ok s → 0 < tp s → fp s = 0 → fn s = 0 → 0 ≤ tn s →
  recall s = 1%Q ∧ precision s = 1%Q ∧ f1 s = 1%Q ∧ fpr s = 0%Q.
Proof.
  intros (Hr & Hp & Hf & Hx & _) Htp Hfp Hfn Htn.
  rewrite Hfn in Hr. rewrite Hfp in Hp, Hx.
  assert (Py.float (inject_Z (tp s) / inject_Z (Z.max (tp s + 0) 1)) = 1%Q)
    as E1.
  { apply float_one.
    replace (Z.max (tp s + 0) 1) with (tp s) by lia.
    apply Qmult_inv_r. change 0%Q with (inject_Z 0).
    rewrite inject_Z_injective. lia. }
  rewrite E1 in Hr, Hp.
  assert (recall s = 1%Q) as Er by (rewrite Hr; by vm_compute).
  assert (precision s = 1%Q) as Ep by (rewrite Hp; by vm_compute).
  split; [done|]. split; [done|]. split.
  - rewrite Hf, Er, Ep. by vm_compute.
  - rewrite Hx. apply round4_float_zero. unfold Qdiv. apply Qmult_0_l.
Qed.

(** C4 as stated fails: with the stub scorer the final stats are perfect,
    but their total is the size of the generated batch, here 121, not the
    requested 100. *)
Lemma attack_end_total_exceeds_request :
  ∃ s,
    last (emitted (run_attack sample_sha256 sample_rng env_stub sample_config
                     fresh_state).2) = Some (EvAttackEnd s) ∧
    recall s = 1%Q ∧ fpr s = 0%Q ∧ f1 s = 1%Q ∧
    total s = 121 ∧ total s ≠ 100.
Proof.
  eexists. split; [vm_compute; reflexivity|].
  cbn [recall fpr f1 total].
  split; [reflexivity|]. split; [reflexivity|]. split; [reflexivity|].
  split; [reflexivity|]. discriminate.
Qed.

(** A run against a scorer that flags exactly the frauds, on reliable
    persistence: it returns normally and its final stats count every
    transaction of the batch, the frauds as true positives, with no false
    positive and no false negative. *)
Lemma stub_scorer_run sha256_hexdigest default_rng env config st :
  idle st → db_reliable env → flags_iff_fraud env →
  ∃ st' evs s batch,
    batch = generate_attack_batch sha256_hexdigest default_rng
              (config_total config) (config_fraud_pct config) 42
              (token_hex env) ∧
    run_attack sha256_hexdigest default_rng env config st = (Ok (), st') ∧
    emitted st' = evs ++ [EvAttackEnd s] ∧
    counters_nonneg s ∧
    total s = Z.of_nat (length batch) ∧
    tp s = Z.of_nat (fraud_count batch) ∧
    fp s = 0 ∧ fn s = 0 ∧
    (batch ≠ [] → metrics_ok s).
Proof.
  intros [Hidle Hev] Hrel Hstub.
  destruct (run_attack_completes sha256_hexdigest default_rng env
              config st Hidle Hrel)
    as (st' & E & _ & _ & Hreplay & (evs & Hem & _) & _).
  rewrite (flags_stub _ _ _ _ Hstub) in Hreplay.
  remember (generate_attack_batch sha256_hexdigest default_rng
              (config_total config) (config_fraud_pct config) 42
              (token_hex env)) as batch eqn:Hbatch.
  destruct (replay_perfect batch StatsSnapshot_new)
    as (s & Es & Hnn & Ht & Htp & Hfp & Hfn & Hm);
    [apply new_stats_consistent|].
  change (current_stats (mkRunState false StatsSnapshot_new (session st)
                           (emitted st))) with StatsSnapshot_new in Hreplay.
  change (emitted (mkRunState false StatsSnapshot_new (session st)
                           (emitted st))) with (emitted st) in Hem.
  rewrite Es in Hreplay. injection Hreplay as Hs.
  rewrite Hev in Hem. rewrite <- Hs in Hem.
  exists st', evs, s, batch.
  split; [reflexivity|]. split; [exact E|]. split; [exact Hem|].
  split; [exact Hnn|]. split; [exact Ht|]. split; [exact Htp|].
  split; [exact Hfp|]. split; [exact Hfn|]. exact Hm.
Qed.

Lemma sample_targets :
  Z.to_nat (100 - n_fraud_target 100 (1 # 10)) = 90%nat ∧
  fraud_count_lo (per_type_target 100 (1 # 10)) = 23%nat ∧
  fraud_count_hi (per_type_target 100 (1 # 10)) = 39%nat.
Proof. by vm_compute. Qed.

(** C4, amended.  A run with total=100, fraud_pct=0.1, speed="fast" against
    a scorer that flags exactly the frauds, on reliable persistence, returns
    normally; the stats of its [attack_end] event have recall 1, false
    positive rate 0 and F1 1, and their total is the size of the generated
    batch: 90 normal transactions plus the generated frauds, of which there
    are between 23 and 39 (so at least 10), hence between 113 and 129. *)
Theorem stub_scorer_end_to_end sha256_hexdigest default_rng env st :
  idle st → db_reliable env → flags_iff_fraud env →
  let batch :=
    generate_attack_batch sha256_hexdigest default_rng 100 (1 # 10) 42
      (token_hex env) in
  ∃ st' evs s,
    run_attack sha256_hexdigest default_rng env sample_config st
      = (Ok (), st') ∧
    emitted st' = evs ++ [EvAttackEnd s] ∧
    recall s = 1%Q ∧ fpr s = 0%Q ∧ f1 s = 1%Q ∧
    total s = Z.of_nat (length batch) ∧
    total s = 90 + Z.of_nat (fraud_count batch) ∧
    tp s = Z.of_nat (fraud_count batch) ∧
    (10 ≤ 23 ≤ fraud_count batch ≤ 39)%nat ∧
    113 ≤ total s ≤ 129.
Proof.
  intros Hidle Hrel Hstub.
  destruct (stub_scorer_run sha256_hexdigest default_rng env sample_config st
              Hidle Hrel Hstub)
    as (st' & evs & s & batch & Hbatch & E & Hem & Hnn & Ht & Htp & Hfp & Hfn
        & Hm).
  destruct (batch_size sha256_hexdigest default_rng 100 (1 # 10) 42
              (token_hex env)) as [Hlen Hb].
  destruct sample_targets as (T1 & T2 & T3).
  rewrite T1 in Hlen. rewrite T2, T3 in Hb.
  change (config_total sample_config) with 100 in Hbatch.
  change (config_fraud_pct sample_config) with (1 # 10)%Q in Hbatch.
  cbv zeta. rewrite <- Hbatch in Hlen, Hb |- *. clear Hbatch.
  assert (batch ≠ []) as Hne.
  { intros ->. cbn in Hlen. lia. }
  destruct (perfect_metrics s) as (Hr & _ & Hf & Hx);
    [exact (Hm Hne) | lia | exact Hfp | exact Hfn | apply Hnn |].
  exists st', evs, s.
  split; [exact E|]. split; [exact Hem|]. split; [exact Hr|].
  split; [exact Hx|]. split; [exact Hf|]. split; [exact Ht|].
  split; [lia|]. split; [exact Htp|]. split; lia.
Qed.

Lemma stub_scorer_end_to_end_witness :
  idle fresh_state ∧ db_reliable env_stub ∧ flags_iff_fraud env_stub ∧
  ∃ st' evs s,
    run_attack sample_sha256 sample_rng env_stub sample_config fresh_state
      = (Ok (), st') ∧
    emitted st' = evs ++ [EvAttackEnd s] ∧
    recall s = 1%Q ∧ fpr s = 0%Q ∧ f1 s = 1%Q.
Proof.
  assert (idle fresh_state) as H1 by (split; reflexivity).
  assert (db_reliable env_stub) as H2 by (left; reflexivity).
  assert (flags_iff_fraud env_stub) as H3
    by (intros i txn; eexists; reflexivity).
  split; [exact H1|]. split; [exact H2|]. split; [exact H3|].
  destruct (stub_scorer_end_to_end sample_sha256 sample_rng env_stub
              fresh_state H1 H2 H3)
    as (st' & evs & s & E & Hem & Hr & Hx & Hf & _).
  exists st', evs, s. exact (conj E (conj Hem (conj Hr (conj Hx Hf)))).
Defined.

(** ** The fallback scorer *)

Lemma fallback_score_in_unit env i txn :
  beta_in_range env → in_unit (fallback_score env i txn).
Proof.
  intros Hb. unfold fallback_score. apply round4_in_unit, float_in_unit.
  destruct (is_fraud txn); by apply Hb.
Qed.

Lemma sample_beta_in_range (i : nat) (a b : Z) :
  0 < a → 0 < b → in_unit (sample_beta i a b).
Proof.
  intros Ha Hb. unfold sample_beta, in_unit, Qle. cbn [Qnum Qden].
  rewrite Z2Pos.id by lia. lia.
Qed.

Lemma update_stats_total txn flag s s' :
  update_stats txn flag s = Some s' → total s' = total s + 1.
Proof.
  unfold update_stats. intros E. apply derive_metrics_total in E.
  rewrite E. unfold count_txn. by destruct (is_fraud txn), flag.
Qed.

Lemma replay_total scored s s' :
  replay scored s = Some s' → total s' = total s + Z.of_nat (length scored).
Proof.
  revert s. induction scored as [|[txn flag] rest IH]; intros s E.
  - injection E as <-. cbn. lia.
  - cbn [replay] in E.
    destruct (update_stats txn flag s) as [s1|] eqn:E1; [|done].
    cbn [mbind option_bind] in E. apply IH in E.
    apply update_stats_total in E1. cbn [length]. lia.
Qed.

Lemma length_flags env threshold i txns :
  length (flags env threshold i txns) = length txns.
Proof. revert i. induction txns as [|t txns IH]; intros i; cbn; auto. Qed.

Lemma flags_lookup env threshold i txns k txn :
  txns !! k = Some txn →
  flags env threshold i txns !! k
  = Some (txn, (score_txn env threshold (i + k) txn).2).
Proof.
  revert i k. induction txns as [|t txns IH]; intros i [|k] H; try done.
  - injection H as ->. cbn. by rewrite Nat.add_0_r.
  - cbn [flags].
    change (flags env threshold (S i) txns !! k
            = Some (txn, (score_txn env threshold (i + S k) txn).2)).
    replace (i + S k)%nat with (S i + k)%nat by lia. by apply IH.
Qed.

Lemma txn_events_lookup env threshold i txns k txn :
  txns !! k = Some txn →
  EvTransaction (scored_event env threshold (i + k) txn)
    ∈ txn_events env threshold i txns.
Proof.
  revert i k. induction txns as [|t txns IH]; intros i [|k] H; try done.
  - injection H as ->. rewrite Nat.add_0_r. left.
  - cbn [txn_events]. right.
    replace (i + S k)%nat with (S i + k)%nat by lia. by apply IH.
Qed.

Lemma rows_of_lookup env threshold attack_run i txns k txn :
  txns !! k = Some txn →
  rows_of env threshold attack_run i txns !! k
  = Some (mkRow (scored_event env threshold (i + k) txn) attack_run).
Proof.
  revert i k. induction txns as [|t txns IH]; intros i [|k] H; try done.
  - injection H as ->. cbn. by rewrite Nat.add_0_r.
  - cbn [rows_of].
    change (rows_of env threshold attack_run (S i) txns !! k
            = Some (mkRow (scored_event env threshold (i + S k) txn)
                      attack_run)).
    replace (i + S k)%nat with (S i + k)%nat by lia. by apply IH.
Qed.

Lemma length_rows_of env threshold attack_run i txns :
  length (rows_of env threshold attack_run i txns) = length txns.
Proof. revert i. induction txns as [|t txns IH]; intros i; cbn; auto. Qed.

(** C5 as stated fails in two ways.  Where no session is supplied, every
    transaction of the run is scored by the fallback and aggregated, and none
    is persisted.  Where the commit that follows the first row raises, the
    run aborts: transaction 0 got its fallback score and its row was added,
    but it is not aggregated, no [transaction] event is sent, and no row is
    committed. *)
Lemma fallback_transaction_can_be_lost :
  let r :=
    run_attack sample_sha256 sample_rng env_down sample_config fresh_state in
  let r' :=
    run_attack sample_sha256 sample_rng env_commit_fails sample_config
      fresh_state in
  (db env_down = false ∧
   (∀ i txn, score_transactions env_down i txn = None) ∧
   r.1 = Ok () ∧ total (current_stats r.2) = 121 ∧
   ses_rows (session r.2) = [] ∧ ses_durable_rows (session r.2) = 0%nat) ∧
  (db env_commit_fails = true ∧
   (∀ i txn, score_transactions env_commit_fails i txn = None) ∧
   r'.1 = Exc ∧ total (current_stats r'.2) = 0 ∧
   length (ses_rows (session r'.2)) = 1%nat ∧
   ses_durable_rows (session r'.2) = 0%nat ∧
   emitted r'.2
   = [EvLog "info" LogConnecting;
      EvLog "info" (LogMode "SIMULATION" (1 # 2));
      EvLog "info" (LogGenerating 100 (1 # 10));
      EvLog "info" (LogReady 121 31);
      EvAttackStart 121 31]).
Proof.
  cbv zeta. split.
  - split; [reflexivity|]. split; [reflexivity|].
    split; [vm_compute; reflexivity|]. split; [vm_compute; reflexivity|].
    split; vm_compute; reflexivity.
  - split; [reflexivity|]. split; [reflexivity|].
    split; [vm_compute; reflexivity|]. split; [vm_compute; reflexivity|].
    split; [vm_compute; reflexivity|]. split; vm_compute; reflexivity.
Qed.

(** C5, amended.  When the scoring call raises for a transaction of a run
    whose database calls do not raise, the transaction gets a risk score in
    [0, 1], the 4-digit rounding of the generator's Beta(5,2) draw if it is
    a fraud and of its Beta(1,8) draw otherwise, and is flagged exactly when
    that score reaches the threshold reported by the model service, or 0.5
    when none was; it is aggregated into the stats and sent as a
    [transaction] event, and, when a session was supplied, it is persisted:
    its row stands in the session at the position of the transaction, among
    the rows committed by the end of the run. *)
Theorem fallback_keeps_transaction sha256_hexdigest default_rng
    env config st i txn :
  let batch :=
    generate_attack_batch sha256_hexdigest default_rng (config_total config)
      (config_fraud_pct config) 42 (token_hex env) in
  let draw :=
    if is_fraud txn then fallback_beta env i 5 2
    else fallback_beta env i 1 8 in
  let score := Py.round (Py.float draw) 4 in
  let flag := Qle_bool (threshold_of env) score in
  let data := mkTxnEvent txn score flag (explain env i txn score flag) in
  idle st → db_reliable env → beta_in_range env →
  batch !! i = Some txn →
  score_transactions env i txn = None →
  in_unit score ∧
  (flag = true ↔ (threshold_of env <= score)%Q) ∧
  ∃ st',
    run_attack sha256_hexdigest default_rng env config st = (Ok (), st') ∧
    replay (flags env (threshold_of env) 0 batch) StatsSnapshot_new
      = Some (current_stats st') ∧
    flags env (threshold_of env) 0 batch !! i = Some (txn, flag) ∧
    total (current_stats st') = Z.of_nat (length batch) ∧
    EvTransaction data ∈ emitted st' ∧
    (db env = true →
     ses_rows (session st') !! (length (ses_rows (session st)) + i)%nat
       = Some (mkRow data true) ∧
     (length (ses_rows (session st)) + i
      < ses_durable_rows (session st'))%nat).
Proof.
  intros batch draw score flag data [Hidle Hev] Hrel Hbeta Hi Hnone.
  assert (scored_event env (threshold_of env) i txn = data) as Hdata.
  { unfold scored_event, score_txn. rewrite Hnone. reflexivity. }
  assert ((score_txn env (threshold_of env) i txn).2 = flag) as Hflag.
  { unfold score_txn. rewrite Hnone. reflexivity. }
  split; [apply (fallback_score_in_unit env i txn Hbeta)|].
  split; [apply Qle_bool_iff|].
  destruct (run_attack_completes sha256_hexdigest default_rng env
              config st Hidle Hrel)
    as (st' & E & _ & _ & Hreplay & (evs & Hem & Hsub) & Hrows & Hdur).
  fold batch in Hreplay, Hsub, Hrows. cbn [current_stats] in Hreplay.
  cbn [session] in Hrows.
  exists st'. split; [exact E|]. split; [exact Hreplay|].
  split; [|split; [|split]].
  - rewrite (flags_lookup _ _ 0 _ _ _ Hi). cbn [Nat.add]. by rewrite Hflag.
  - rewrite (replay_total _ _ _ Hreplay), length_flags. done.
  - rewrite Hem. apply elem_of_app. right. apply elem_of_app. left.
    apply Hsub. rewrite <- Hdata.
    exact (txn_events_lookup env (threshold_of env) 0 batch i txn Hi).
  - intros Hdb. rewrite (Hdur Hdb), Hrows, Hdb. split.
    + rewrite lookup_app_r by lia.
      replace (length (ses_rows (session st)) + i
               - length (ses_rows (session st)))%nat with i by lia.
      rewrite (rows_of_lookup _ _ _ 0 _ _ _ Hi). cbn [Nat.add].
      by rewrite Hdata.
    + rewrite length_app, length_rows_of.
      apply lookup_lt_Some in Hi. lia.
Qed.

Lemma fallback_keeps_transaction_witness :
  idle fresh_state ∧ db_reliable env_down_db ∧ beta_in_range env_down_db ∧
  generate_attack_batch sample_sha256 sample_rng (config_total sample_config)
    (config_fraud_pct sample_config) 42 (token_hex env_down_db) !! 0%nat
  = Some sample_first_txn ∧
  score_transactions env_down_db 0 sample_first_txn = None ∧
  ∃ st',
    run_attack sample_sha256 sample_rng env_down_db sample_config fresh_state
      = (Ok (), st') ∧
    total (current_stats st')
    = Z.of_nat
        (length
           (generate_attack_batch sample_sha256 sample_rng
              (config_total sample_config) (config_fraud_pct sample_config)
              42 (token_hex env_down_db))) ∧
    (length (ses_rows (session fresh_state)) + 0
     < ses_durable_rows (session st'))%nat.
Proof.
  assert (idle fresh_state) as H1 by (split; reflexivity).
  assert (db_reliable env_down_db) as H2
    by (right; split; [intros k|]; reflexivity).
  assert (beta_in_range env_down_db) as Hb
    by (intros i a b; apply sample_beta_in_range).
  assert (generate_attack_batch sample_sha256 sample_rng
            (config_total sample_config) (config_fraud_pct sample_config) 42
            (token_hex env_down_db) !! 0%nat
          = Some sample_first_txn) as H3
    by (vm_compute; reflexivity).
  assert (score_transactions env_down_db 0 sample_first_txn = None) as H4
    by reflexivity.
  split; [exact H1|]. split; [exact H2|]. split; [exact Hb|].
  split; [exact H3|]. split; [exact H4|].
  destruct (fallback_keeps_transaction sample_sha256 sample_rng env_down_db
              sample_config fresh_state 0 sample_first_txn H1 H2 Hb H3 H4)
    as (_ & _ & st' & E & _ & _ & Ht & _ & Hp).
  exists st'.
  exact (conj E (conj Ht (proj2 (Hp eq_refl)))).
Defined.

(** ** Fields of the generated transactions *)









Section Fields.

Context (sha256_hexdigest : string → string).
Context (start : Z) (base_time : datetime) (p : string).









End Fields.





Section RowsOk.

Context (sha256_hexdigest : string → string).
Context (base_time : datetime) (p : string).
Context (Hbase : 0 ≤ second_of_day base_time < 86400).









End RowsOk.













Section FillerHead.

Context (sha256_hexdigest : string → string).
Context (base_time : datetime) (fraud_ratio : Q) (p : string) (counter : Z).




End FillerHead.


(** ** Size of a batch *)








